(** * The cgroups validator of system-validators

    A shallow embedding of [validators/cgroup_validator.go] and the
    properties of its two components: the reader of [/proc/cgroups]
    ([getCgroupSubsystems]) and the checker ([validateCgroupSubsystems],
    [Validate]).

    Go strings are byte strings: they are modelled by [string], one [ascii]
    per byte.  A Go function that can panic returns an [outcome].  The
    reporter, the file and the scanner are the collaborators of the code;
    they are modelled by what the code observes of them. *)

From Stdlib Require Import String Ascii List Bool Arith NArith Lia Permutation.
Import ListNotations.
Open Scope string_scope.
Open Scope nat_scope.

(** ** Go values *)

(** A slice is [nil] or holds elements; [len], [range] and [append] do not
    tell the two apart when there are no elements, a comparison with [nil]
    does. *)
Inductive slice (A : Type) : Type :=
| Nil
| Slice (l : list A).
Arguments Nil {A}.
Arguments Slice {A} l.

Definition elems {A : Type} (s : slice A) : list A :=
  match s with
  | Nil => []
  | Slice l => l
  end.

Definition len {A : Type} (s : slice A) : nat := length (elems s).

Definition append {A : Type} (s : slice A) (x : A) : slice A :=
  Slice (elems s ++ [x]).

(** The result of a call: a value, or a run-time panic. *)
Inductive outcome (A : Type) : Type :=
| Returns (a : A)
| Panics (msg : string).
Arguments Returns {A} a.
Arguments Panics {A} msg.

(** Error values.  [SysErr] stands for an error made by [os] or [bufio];
    [Errorf] and [Wrap] are those of [github.com/pkg/errors]: the message of
    a wrapped error is the context, a colon and the message of its cause. *)
Inductive error : Type :=
| SysErr (msg : string)
| Errorf (msg : string)
| Wrap (cause : error) (msg : string).

Fixpoint Error (e : error) : string :=
  match e with
  | SysErr msg => msg
  | Errorf msg => msg
  | Wrap cause msg => msg ++ ": " ++ Error cause
  end.

(** ** The [strings] package *)

Module strings.

(** [strings.Join]. *)
Fixpoint Join (elems : list string) (sep : string) : string :=
  match elems with
  | [] => ""
  | x :: rest =>
      match rest with
      | [] => x
      | _ :: _ => x ++ sep ++ Join rest sep
      end
  end.

Definition byte (c : ascii) : nat := nat_of_ascii c.

(** The white space of [unicode.IsSpace], read on the UTF-8 bytes of the
    string.  [spaceWidth s] is the number of bytes of the white-space rune
    that [s] starts with, 0 when it starts with none.  The runes are
    U+0009 to U+000D and U+0020; U+0085 and U+00A0; U+1680, U+2000 to
    U+200A, U+2028, U+2029, U+202F, U+205F and U+3000.  The first byte of
    each encoding is never a continuation byte, so a rune starts wherever
    one of them occurs; all other bytes, of valid runes or not, belong to
    fields. *)
Definition asciiSpace (b : nat) : bool :=
  ((9 <=? b) && (b <=? 13)) || (b =? 32).

Definition space2 (b0 b1 : nat) : bool :=
  (b0 =? 194) && ((b1 =? 133) || (b1 =? 160)).

Definition space3 (b0 b1 b2 : nat) : bool :=
  ((b0 =? 225) && (b1 =? 154) && (b2 =? 128))
  || ((b0 =? 226) && (b1 =? 128)
      && (((128 <=? b2) && (b2 <=? 138))
          || (b2 =? 168) || (b2 =? 169) || (b2 =? 175)))
  || ((b0 =? 226) && (b1 =? 129) && (b2 =? 159))
  || ((b0 =? 227) && (b1 =? 128) && (b2 =? 128)).

Definition spaceWidth (s : string) : nat :=
  match s with
  | EmptyString => 0
  | String c0 s1 =>
      if asciiSpace (byte c0) then 1
      else
        match s1 with
        | EmptyString => 0
        | String c1 s2 =>
            if space2 (byte c0) (byte c1) then 2
            else
              match s2 with
              | EmptyString => 0
              | String c2 _ =>
                  if space3 (byte c0) (byte c1) (byte c2) then 3 else 0
              end
        end
  end.

(** A field is closed when it holds a byte. *)
Definition flush (cur : string) (fields : list string) : list string :=
  match cur with
  | EmptyString => fields
  | String _ _ => cur :: fields
  end.

(** [fieldsFrom s skip cur]: the fields of [s], where [skip] bytes remain
    of the white-space rune being passed and [cur] is the field read so
    far. *)
Fixpoint fieldsFrom (s : string) (skip : nat) (cur : string) : list string :=
  match s with
  | EmptyString => flush cur []
  | String c rest =>
      match skip with
      | S k => fieldsFrom rest k cur
      | O =>
          match spaceWidth s with
          | O => fieldsFrom rest 0 (cur ++ String c EmptyString)
          | S k => flush cur (fieldsFrom rest k EmptyString)
          end
      end
  end.

(** [strings.Fields]: the maximal runs of bytes between white space. *)
Definition Fields (s : string) : list string := fieldsFrom s 0 EmptyString.

(** [strings.ToUpper].  A string of ASCII bytes has its letters a to z
    replaced; any other string goes through [unicode.ToUpper] rune by
    rune, whose case tables are the parameter [mapUpper]. *)
Definition isASCII (s : string) : bool :=
  forallb (fun c => byte c <? 128) (list_ascii_of_string s).

Definition upperByte (c : ascii) : ascii :=
  if (97 <=? byte c) && (byte c <=? 122)
  then ascii_of_nat (byte c - 32)
  else c.

Fixpoint mapBytes (f : ascii -> ascii) (s : string) : string :=
  match s with
  | EmptyString => EmptyString
  | String c rest => String (f c) (mapBytes f rest)
  end.

Definition ToUpper (mapUpper : string -> string) (s : string) : string :=
  if isASCII s then mapBytes upperByte s else mapUpper s.

End strings.

(** ** The collaborators *)

(** [ValidationResultType], the severity of a report. *)
Inductive ValidationResultType : Type := good | bad | warn.

(** What [Reporter.Report] receives in one call. *)
Record ReportEvent : Type := mkReportEvent {
  itemKey : string;
  status : string;
  severity : ValidationResultType
}.

(** The reporter is the sink of the report events: its state is the events
    received so far, oldest first.  The value [Report] returns is dropped by
    the validator. *)
Definition Reporter : Type := list ReportEvent.

Definition Report (r : Reporter) (item msg : string)
    (result : ValidationResultType) : Reporter :=
  (r ++ [mkReportEvent item msg result])%list.

(** The two lists of names of the specification, [spec.CgroupSpec.Required]
    and [spec.CgroupSpec.Optional]; the other fields of [SysSpec] are not
    read by this validator. *)
Record cgroupSpec : Type := mkCgroupSpec {
  Required : list string;
  Optional : list string
}.

Record SysSpec : Type := mkSysSpec {
  CgroupSpec : cgroupSpec
}.

(** One turn of [for s.Scan()]: [Scan] returned true, and [Text] and [Err]
    return these values. *)
Record scan : Type := mkScan {
  Text : string;
  Err : option error
}.

(** A [bufio.Scanner] over the opened file, as the loop observes it: the
    turns for which [Scan] returns true, in order, and what [Err] would
    return once [Scan] has returned false.  A read error that leaves buffered
    data shows in [Err] while the data is handed out; one that leaves none
    makes [Scan] return false at once and is only in [finalErr]. *)
Record Scanner : Type := mkScanner {
  scans : list scan;
  finalErr : option error
}.

(** [/proc/cgroups] at the time of the call: [os.Open] fails, or the file is
    scanned. *)
Inductive procCgroups : Type :=
| OpenFails (err : error)
| Opened (s : Scanner).

(** The scanner that hands out these texts, one per turn and without an
    error, and then ends without an error.  The texts are tokens of
    [bufio.ScanLines], not the raw lines of a file: for a file whose lines
    are all shorter than 64 KiB they are its lines with one trailing
    carriage return dropped; [fileLines] below gives the scanner of any
    file. *)
Definition fileOf (lines : list string) : procCgroups :=
  Opened (mkScanner (map (fun l => mkScan l None) lines) None).

(** [bufio.MaxScanTokenSize]: a line of this many bytes or more, not counting
    its newline, does not fit the buffer of the scanner. *)
Definition MaxScanTokenSize : N := 65536.

Definition tooLong (line : string) : bool :=
  (MaxScanTokenSize <=? N.of_nat (String.length line))%N.

(** [bufio.ErrTooLong]. *)
Definition ErrTooLong : error := SysErr "bufio.Scanner: token too long".

(** [dropCR] of [bufio]: one trailing carriage return is dropped. *)
Fixpoint dropCR (data : string) : string :=
  match data with
  | EmptyString => EmptyString
  | String c rest =>
      match rest with
      | EmptyString => if strings.byte c =? 13 then EmptyString else data
      | String _ _ => String c (dropCR rest)
      end
  end.

(** The turns of [bufio.Scanner] with [bufio.ScanLines] over a file that is
    read without an I/O error, where [lines] are the byte strings between
    the newlines of the file: each line is handed out with one trailing
    carriage return dropped, until a line is too long; there [Scan] returns
    false and [Err] holds [ErrTooLong]. *)
Fixpoint lineTurns (lines : list string) : list scan :=
  match lines with
  | [] => []
  | line :: rest =>
      if tooLong line then []
      else mkScan (dropCR line) None :: lineTurns rest
  end.

Fixpoint linesErr (lines : list string) : option error :=
  match lines with
  | [] => None
  | line :: rest => if tooLong line then Some ErrTooLong else linesErr rest
  end.

Definition fileLines (lines : list string) : procCgroups :=
  Opened (mkScanner (lineTurns lines) (linesErr lines)).

(** The lines of the bytes of a file, as [bufio.ScanLines] cuts them: a line
    ends at each newline, and the bytes after the last newline are a line
    when there are any. *)
Fixpoint linesFrom (data cur : string) : list string :=
  match data with
  | EmptyString =>
      match cur with
      | EmptyString => []
      | String _ _ => [cur]
      end
  | String c rest =>
      if strings.byte c =? 10 then cur :: linesFrom rest EmptyString
      else linesFrom rest (cur ++ String c EmptyString)
  end.

Definition linesOf (data : string) : list string :=
  linesFrom data EmptyString.

(** The newline byte. *)
Definition newline : string := String (ascii_of_nat 10) EmptyString.

(** ** The validator *)

Definition cgroupsConfigPrefix : string := "CGROUPS_".

Definition Name : string := "cgroups".

Definition indexPanic : string :=
  "runtime error: index out of range [0] with length 0".

(** The loop of [getCgroupSubsystems] over the remaining turns of the
    scanner.  [text[0]] panics on the empty string; [parts[3]] and
    [parts[0]] are read only under [len(parts) >= 4]. *)
Fixpoint scanLoop (turns : list scan) (subsystems : slice string)
    : outcome (slice string * option error) :=
  match turns with
  | [] => Returns (subsystems, None)
  | s :: rest =>
      match Err s with
      | Some err => Returns (Nil, Some err)
      | None =>
          let text := Text s in
          match text with
          | EmptyString => Panics indexPanic
          | String c _ =>
              if negb (Ascii.eqb c "#") then
                let parts := strings.Fields text in
                if (4 <=? length parts) && negb (nth 3 parts "" =? "0")%string
                then scanLoop rest (append subsystems (nth 0 parts ""))
                else scanLoop rest subsystems
              else scanLoop rest subsystems
          end
      end
  end.

Definition getCgroupSubsystems (f : procCgroups)
    : outcome (slice string * option error) :=
  match f with
  | OpenFails err => Returns (Nil, Some err)
  | Opened s => scanLoop (scans s) (Slice [])
  end.

(** The inner loop of [validateCgroupSubsystems]: is [cgroup] equal to one
    of the subsystems. *)
Fixpoint found (cgroup : string) (subsystems : list string) : bool :=
  match subsystems with
  | [] => false
  | subsystem :: rest =>
      if (cgroup =? subsystem)%string then true else found cgroup rest
  end.

Section Checker.

(** The case tables of [unicode.ToUpper], see [strings.ToUpper]. *)
Variable mapUpper : string -> string.

(** The outer loop of [validateCgroupSubsystems]. *)
Fixpoint validateLoop (cgroups subsystems : list string) (required : bool)
    (missing : slice string) (r : Reporter) : slice string * Reporter :=
  match cgroups with
  | [] => (missing, r)
  | cgroup :: rest =>
      let item := cgroupsConfigPrefix ++ strings.ToUpper mapUpper cgroup in
      if found cgroup subsystems then
        validateLoop rest subsystems required missing
          (Report r item "enabled" good)
      else
        let r' :=
          if required then Report r item "missing" bad
          else Report r item "missing" warn in
        validateLoop rest subsystems required (append missing cgroup) r'
  end.

Definition validateCgroupSubsystems (cgroups : list string)
    (subsystems : slice string) (required : bool) (r : Reporter)
    : slice string * Reporter :=
  validateLoop cgroups (elems subsystems) required Nil r.

(** [Validate] returns [(warns, errs)]; the reporter is threaded through
    the two passes. *)
Definition Validate (spec : SysSpec) (f : procCgroups) (r : Reporter)
    : outcome (slice error * slice error * Reporter) :=
  match getCgroupSubsystems f with
  | Panics msg => Panics msg
  | Returns (_, Some err) =>
      Returns (Nil, Slice [Wrap err "failed to get cgroup subsystems"], r)
  | Returns (subsystems, None) =>
      let (missingRequired, r1) :=
        validateCgroupSubsystems (Required (CgroupSpec spec)) subsystems
          true r in
      let errs :=
        if negb (len missingRequired =? 0) then
          Slice [Errorf ("missing required cgroups: "
                         ++ strings.Join (elems missingRequired) " ")]
        else Nil in
      let (missingOptional, r2) :=
        validateCgroupSubsystems (Optional (CgroupSpec spec)) subsystems
          false r1 in
      let warns :=
        if negb (len missingOptional =? 0) then
          Slice [Errorf ("missing optional cgroups: "
                         ++ strings.Join (elems missingOptional) " ")]
        else Nil in
      Returns (warns, errs, r2)
  end.

(** *** What the properties are stated with *)

(** The event that the loop reports for one declared name. *)
Definition reportFor (subsystems : list string) (required : bool)
    (cgroup : string) : ReportEvent :=
  let item := cgroupsConfigPrefix ++ strings.ToUpper mapUpper cgroup in
  if found cgroup subsystems then mkReportEvent item "enabled" good
  else mkReportEvent item "missing" (if required then bad else warn).

(** A declared name and its report event, in the words of the
    specification: the key is the prefix and the upper-cased name; a name
    in the enabled set is reported enabled and good, any other missing,
    bad in the required pass and warn in the optional one. *)
Definition reported (enabled : list string) (required : bool)
    (cgroup : string) (ev : ReportEvent) : Prop :=
  itemKey ev = "CGROUPS_" ++ strings.ToUpper mapUpper cgroup
  /\ (In cgroup enabled -> status ev = "enabled" /\ severity ev = good)
  /\ (~ In cgroup enabled ->
      status ev = "missing"
      /\ severity ev = if required then bad else warn).

End Checker.

(** The names of a list that are not in the enabled set, in the order of the
    list. *)
Definition absent (enabled : list string) (name : string) : bool :=
  negb (existsb (String.eqb name) enabled).

Definition missingNames (enabled names : list string) : list string :=
  filter (absent enabled) names.

(** The missing names as the slice that the loop builds: [nil] until a name
    is appended. *)
Definition missingSlice (names : list string) : slice string :=
  match names with
  | [] => Nil
  | _ :: _ => Slice names
  end.

(** One error or warning for a tier, none when nothing is missing. *)
Definition tierResult (tier : string) (missing : list string)
    : slice error :=
  match missing with
  | [] => Nil
  | _ :: _ =>
      Slice [Errorf (("missing " ++ tier ++ " cgroups: ")
                     ++ strings.Join missing " ")]
  end.

(** The reader in the words of the specification: a line is a record of an
    enabled subsystem when it is not a comment, has at least 4 fields and its
    4th field is not the text "0"; the enabled names are the first fields of
    these lines. *)
Definition isComment (line : string) : bool :=
  match line with
  | String c _ => Ascii.eqb c "#"
  | EmptyString => false
  end.

Definition enabledRecord (line : string) : bool :=
  negb (isComment line)
  && (4 <=? length (strings.Fields line))
  && negb (nth 3 (strings.Fields line) "" =? "0")%string.

Definition enabledNames (lines : list string) : list string :=
  map (fun line => nth 0 (strings.Fields line) "")
      (filter enabledRecord lines).

Definition hasEmptyLine (lines : list string) : bool :=
  existsb (String.eqb "") lines.

(** A line of ASCII blanks only. *)
Fixpoint blankLine (line : string) : bool :=
  match line with
  | EmptyString => true
  | String c rest => strings.asciiSpace (strings.byte c) && blankLine rest
  end.

(** A name falls in exactly one of the three classes: present, missing
    required, missing optional. *)
Definition classifiedOnce (enabled missingRequired missingOptional
    : list string) (name : string) : Prop :=
  (In name enabled
   /\ ~ In name missingRequired /\ ~ In name missingOptional)
  \/ (~ In name enabled
      /\ In name missingRequired /\ ~ In name missingOptional)
  \/ (~ In name enabled
      /\ ~ In name missingRequired /\ In name missingOptional).

(** The invariant read on names: every name of either list falls in exactly
    one class, where the missing lists are those of the two passes of
    [Validate]. *)
Definition namesClassifiedOnce (mapUpper : string -> string)
    (spec : SysSpec) (subsystems : slice string) (r : Reporter) : Prop :=
  let p1 :=
    validateCgroupSubsystems mapUpper (Required (CgroupSpec spec)) subsystems
      true r in
  let p2 :=
    validateCgroupSubsystems mapUpper (Optional (CgroupSpec spec)) subsystems
      false (snd p1) in
  forall name : string,
    In name (Required (CgroupSpec spec) ++ Optional (CgroupSpec spec)) ->
    classifiedOnce (elems subsystems) (elems (fst p1)) (elems (fst p2)) name.

(** A turn of the scanner that the loop passes: no error and a text that is
    not empty. *)
Definition cleanTurn (t : scan) : Prop :=
  Err t = None /\ Text t <> "".

(** [sub] occurs in [s]. *)
Definition hasSubstring (s sub : string) : Prop :=
  exists pre post : string, s = pre ++ sub ++ post.

(** A string without an ASCII blank. *)
Fixpoint noBlank (s : string) : bool :=
  match s with
  | EmptyString => true
  | String c rest =>
      negb (strings.asciiSpace (strings.byte c)) && noBlank rest
  end.

(** Scenario A of the specification: a status file and a specification. *)
Definition scenarioA : procCgroups :=
  fileOf ["#subsys_name hierarchy num_cgroups enabled";
          "cpu 1 1 1"; "memory 2 1 0"; "pids 3 1 1"].

Definition specA : SysSpec :=
  mkSysSpec (mkCgroupSpec ["cpu"; "memory"] ["pids"; "blkio"]).

(** ** The [strings] functions on examples *)

Example Fields_record :
  strings.Fields "cpu	1  12 1" = ["cpu"; "1"; "12"; "1"].
Proof. reflexivity. Qed.

Example Fields_empty : strings.Fields "" = [].
Proof. reflexivity. Qed.

Example ToUpper_ascii :
  strings.ToUpper (fun s => s) "cpu_Acct1" = "CPU_ACCT1".
Proof. reflexivity. Qed.

Example Join_three : strings.Join ["a"; "b"; "c"] " " = "a b c".
Proof. reflexivity. Qed.

(** ** The reader *)

Lemma found_existsb (cgroup : string) (subsystems : list string) :
  found cgroup subsystems = existsb (String.eqb cgroup) subsystems.
Proof.
  induction subsystems as [|s rest IH]; simpl; [reflexivity|].
  rewrite IH. destruct (cgroup =? s)%string; reflexivity.
Qed.

Lemma found_In (cgroup : string) (subsystems : list string) :
  found cgroup subsystems = true <-> In cgroup subsystems.
Proof.
  rewrite found_existsb, existsb_exists. split.
  - intros [s [Hin Heq]]. apply String.eqb_eq in Heq. now subst.
  - intros Hin. exists cgroup. split; [assumption|apply String.eqb_refl].
Qed.

Lemma absent_found (enabled : list string) (name : string) :
  absent enabled name = negb (found name enabled).
Proof. unfold absent. now rewrite found_existsb. Qed.

Lemma absent_not_In (enabled : list string) (name : string) :
  absent enabled name = true <-> ~ In name enabled.
Proof.
  rewrite absent_found, negb_true_iff, <- found_In.
  destruct (found name enabled); split; congruence.
Qed.

(** The step of the loop on a line that is not empty and came without an
    error. *)
Lemma scanLoop_step (c : ascii) (tail : string) (rest : list scan)
    (got : list string) :
  scanLoop (mkScan (String c tail) None :: rest) (Slice got)
  = scanLoop rest
      (Slice (got ++ enabledNames [String c tail])).
Proof.
  unfold enabledNames, enabledRecord.
  cbn [scanLoop Err Text filter isComment].
  destruct (Ascii.eqb c "#"); cbn [negb andb map].
  - now rewrite app_nil_r.
  - set (parts := strings.Fields (String c tail)).
    destruct ((4 <=? length parts) && negb (nth 3 parts "" =? "0")%string);
      cbn [map].
    + reflexivity.
    + now rewrite app_nil_r.
Qed.

Lemma enabledNames_cons (line : string) (lines : list string) :
  enabledNames (line :: lines)
  = (enabledNames [line] ++ enabledNames lines)%list.
Proof.
  unfold enabledNames. simpl. destruct (enabledRecord line); reflexivity.
Qed.

(** A file without an empty line: the loop ends and returns the enabled
    names of the specification, in the order of the file. *)
Lemma scanLoop_lines (lines : list string) (got : list string) :
  hasEmptyLine lines = false ->
  scanLoop (map (fun l => mkScan l None) lines) (Slice got)
  = Returns (Slice (got ++ enabledNames lines), None).
Proof.
  revert got. induction lines as [|line lines IH]; intros got Hne.
  - simpl. now rewrite app_nil_r.
  - simpl in Hne. apply orb_false_iff in Hne as [Hline Hrest].
    destruct line as [|c tail]; [discriminate|].
    simpl map. rewrite scanLoop_step, IH by assumption.
    now rewrite <- app_assoc, <- enabledNames_cons.
Qed.

(** A file with an empty line: the loop panics at the first one. *)
Lemma scanLoop_empty_line (lines : list string) (got : list string) :
  hasEmptyLine lines = true ->
  scanLoop (map (fun l => mkScan l None) lines) (Slice got)
  = Panics indexPanic.
Proof.
  revert got. induction lines as [|line lines IH]; intros got He.
  - discriminate.
  - destruct line as [|c tail]; [reflexivity|].
    simpl map. rewrite scanLoop_step. apply IH. exact He.
Qed.

(** The reader on a file that is read without an error. *)
Lemma getCgroupSubsystems_fileOf (lines : list string) :
  getCgroupSubsystems (fileOf lines)
  = if hasEmptyLine lines then Panics indexPanic
    else Returns (Slice (enabledNames lines), None).
Proof.
  unfold getCgroupSubsystems, fileOf. simpl scans.
  destruct (hasEmptyLine lines) eqn:He.
  - now apply scanLoop_empty_line.
  - now rewrite scanLoop_lines.
Qed.

(** The fields of a line of blanks. *)
Lemma Fields_blankLine (line : string) :
  blankLine line = true -> strings.Fields line = [].
Proof.
  unfold strings.Fields. induction line as [|c rest IH]; intros Hb.
  - reflexivity.
  - simpl in Hb. apply andb_true_iff in Hb as [Hc Hrest].
    simpl. rewrite Hc. simpl. now apply IH.
Qed.

(** A blank line that is not empty is passed over. *)
Lemma scanLoop_blankLine (c : ascii) (tail : string) (rest : list scan)
    (got : list string) :
  blankLine (String c tail) = true ->
  scanLoop (mkScan (String c tail) None :: rest) (Slice got)
  = scanLoop rest (Slice got).
Proof.
  intros Hb. rewrite scanLoop_step.
  unfold enabledNames, enabledRecord. simpl filter.
  rewrite (Fields_blankLine _ Hb). simpl.
  rewrite andb_false_r. simpl. now rewrite app_nil_r.
Qed.

(** [os.Open] fails: the error is returned with no list. *)
Lemma getCgroupSubsystems_open_fails (err : error) :
  getCgroupSubsystems (OpenFails err) = Returns (Nil, Some err).
Proof. reflexivity. Qed.

(** A read error that shows while [Scan] still returns true, after lines
    without an empty one: the error is returned with no list. *)
Lemma getCgroupSubsystems_error_in_loop (lines : list string)
    (text : string) (err : error) (rest : list scan) (final : option error) :
  hasEmptyLine lines = false ->
  getCgroupSubsystems
    (Opened (mkScanner (map (fun l => mkScan l None) lines
                        ++ mkScan text (Some err) :: rest)%list final))
  = Returns (Nil, Some err).
Proof.
  unfold getCgroupSubsystems. simpl scans. generalize (@nil string).
  induction lines as [|line lines IH]; intros got Hne.
  - reflexivity.
  - simpl in Hne. apply orb_false_iff in Hne as [Hline Hrest].
    destruct line as [|c tail]; [discriminate|].
    simpl map. simpl app. rewrite scanLoop_step. now apply IH.
Qed.

(** What [Err] returns after the loop is not read. *)
Lemma getCgroupSubsystems_finalErr (turns : list scan)
    (e1 e2 : option error) :
  getCgroupSubsystems (Opened (mkScanner turns e1))
  = getCgroupSubsystems (Opened (mkScanner turns e2)).
Proof. reflexivity. Qed.

(** ** The checker *)

Section CheckerProperties.

Variable mapUpper : string -> string.

Lemma reportFor_reported (subsystems : list string) (required : bool)
    (cgroup : string) :
  reported mapUpper subsystems required cgroup
    (reportFor mapUpper subsystems required cgroup).
Proof.
  unfold reported, reportFor.
  destruct (found cgroup subsystems) eqn:Hf; simpl.
  - split; [reflexivity|]. split; [easy|].
    intros Hout. apply found_In in Hf. contradiction.
  - split; [reflexivity|]. split; [|easy].
    intros Hin. apply found_In in Hin. congruence.
Qed.

(** The loop, closed: the missing names are appended in order and one
    event per declared name is sent to the reporter. *)
Lemma validateLoop_eq (cgroups subsystems : list string) (required : bool) :
  forall (missing : slice string) (r : Reporter),
    validateLoop mapUpper cgroups subsystems required missing r
    = (match missingNames subsystems cgroups with
       | [] => missing
       | more => Slice (elems missing ++ more)
       end,
       (r ++ map (reportFor mapUpper subsystems required) cgroups)%list).
Proof.
  induction cgroups as [|cgroup rest IH]; intros missing r.
  - simpl. now rewrite app_nil_r.
  - cbn [validateLoop missingNames filter map].
    rewrite absent_found.
    assert (Hev : reportFor mapUpper subsystems required cgroup
                  = if found cgroup subsystems
                    then mkReportEvent
                           (cgroupsConfigPrefix
                            ++ strings.ToUpper mapUpper cgroup)
                           "enabled" good
                    else mkReportEvent
                           (cgroupsConfigPrefix
                            ++ strings.ToUpper mapUpper cgroup)
                           "missing" (if required then bad else warn))
      by reflexivity.
    rewrite Hev. clear Hev.
    destruct (found cgroup subsystems) eqn:Hf; cbn [negb].
    + rewrite IH. unfold Report. now rewrite <- app_assoc.
    + rewrite IH. fold (missingNames subsystems rest).
      f_equal.
      * cbn [append elems].
        destruct (missingNames subsystems rest); [reflexivity|].
        now rewrite <- app_assoc.
      * destruct required; unfold Report; now rewrite <- app_assoc.
Qed.

Lemma validateCgroupSubsystems_eq (cgroups : list string)
    (subsystems : slice string) (required : bool) (r : Reporter) :
  validateCgroupSubsystems mapUpper cgroups subsystems required r
  = (missingSlice (missingNames (elems subsystems) cgroups),
     (r ++ map (reportFor mapUpper (elems subsystems) required) cgroups)%list).
Proof.
  unfold validateCgroupSubsystems. rewrite validateLoop_eq.
  now destruct (missingNames (elems subsystems) cgroups).
Qed.

Lemma tier_of_missingSlice (tier : string) (names : list string) :
  (if negb (len (missingSlice names) =? 0)
   then Slice [Errorf (("missing " ++ tier ++ " cgroups: ")
                       ++ strings.Join (elems (missingSlice names)) " ")]
   else Nil)
  = tierResult tier names.
Proof. now destruct names. Qed.

(** [Validate] on a source that the reader reads: the two tiers and the
    events of the two passes, the required pass first. *)
Lemma Validate_read (spec : SysSpec) (f : procCgroups)
    (subsystems : slice string) (r : Reporter) :
  getCgroupSubsystems f = Returns (subsystems, None) ->
  Validate mapUpper spec f r
  = Returns
      (tierResult "optional"
         (missingNames (elems subsystems) (Optional (CgroupSpec spec))),
       tierResult "required"
         (missingNames (elems subsystems) (Required (CgroupSpec spec))),
       (r ++ map (reportFor mapUpper (elems subsystems) true)
               (Required (CgroupSpec spec))
          ++ map (reportFor mapUpper (elems subsystems) false)
               (Optional (CgroupSpec spec)))%list).
Proof.
  intros Hread. unfold Validate. rewrite Hread.
  rewrite !validateCgroupSubsystems_eq.
  rewrite (tier_of_missingSlice "required"),
          (tier_of_missingSlice "optional").
  now rewrite <- app_assoc.
Qed.

(** [Validate] on a source that the reader fails on. *)
Lemma Validate_failed (spec : SysSpec) (f : procCgroups)
    (got : slice string) (err : error) (r : Reporter) :
  getCgroupSubsystems f = Returns (got, Some err) ->
  Validate mapUpper spec f r
  = Returns (Nil, Slice [Wrap err "failed to get cgroup subsystems"], r).
Proof. intros Hread. unfold Validate. now rewrite Hread. Qed.

End CheckerProperties.

Lemma elems_missingSlice (names : list string) :
  elems (missingSlice names) = names.
Proof. now destruct names. Qed.

Lemma In_missingNames (enabled names : list string) (name : string) :
  In name (missingNames enabled names)
  <-> In name names /\ ~ In name enabled.
Proof.
  unfold missingNames. rewrite filter_In, absent_not_In. reflexivity.
Qed.

Lemma Forall2_reportFor (mapUpper : string -> string)
    (enabled : list string) (required : bool) (cgroups : list string) :
  Forall2 (reported mapUpper enabled required) cgroups
    (map (reportFor mapUpper enabled required) cgroups).
Proof.
  induction cgroups as [|cgroup rest IH]; simpl; constructor.
  - apply reportFor_reported.
  - exact IH.
Qed.

(** ** The reader: properties *)

(** On a file without an empty line the reader returns exactly the first
    fields of the lines that are not comments, have at least 4 fields and
    whose 4th field is not the text "0". *)
Lemma getCgroupSubsystems_enabledNames (lines : list string) :
  hasEmptyLine lines = false ->
  getCgroupSubsystems (fileOf lines)
  = Returns (Slice (enabledNames lines), None).
Proof. intros Hne. now rewrite getCgroupSubsystems_fileOf, Hne. Qed.

(** The 4th field is compared as text: "00" and "0x0" are not "0". *)
Example count_compared_as_text :
  getCgroupSubsystems
    (fileOf ["#subsys_name hierarchy num_cgroups enabled";
             "cpu 1 1 1"; "memory 2 1 0"; "pids 3 1 00"; "blkio 4 1 0x0";
             "short 1 1"; "   "])
  = Returns (Slice ["cpu"; "pids"; "blkio"], None).
Proof. reflexivity. Qed.

(** C1: the reader is to return, for every content, the first fields of the
    records with at least 4 fields and a 4th field other than "0", lines with
    fewer fields adding nothing.  On the content below, whose second line is
    empty, these names are cpu and memory, and the reader panics on
    [text[0]] instead of returning them. *)
Theorem reader_on_records_around_an_empty_line :
  enabledNames ["cpu 1 1 1"; ""; "memory 2 1 1"] = ["cpu"; "memory"]
  /\ getCgroupSubsystems (fileOf ["cpu 1 1 1"; ""; "memory 2 1 1"])
     = Panics indexPanic.
Proof. split; reflexivity. Qed.

(** C6: the reader is not to fault on an empty line.  It does: whenever the
    file holds an empty line and is read without an error, the reader panics
    with an index out of range. *)
Theorem reader_panics_on_empty_line (lines : list string) :
  In "" lines ->
  getCgroupSubsystems (fileOf lines) = Panics indexPanic.
Proof.
  intros Hin. rewrite getCgroupSubsystems_fileOf.
  replace (hasEmptyLine lines) with true; [reflexivity|].
  symmetry. apply existsb_exists. exists "". now split.
Qed.

Lemma reader_panics_on_empty_line_witness :
  In "" ["cpu 1 1 1"; ""]
  /\ getCgroupSubsystems (fileOf ["cpu 1 1 1"; ""]) = Panics indexPanic.
Proof.
  split.
  - simpl. right. left. reflexivity.
  - apply (reader_panics_on_empty_line ["cpu 1 1 1"; ""]).
    simpl. right. left. reflexivity.
Defined.

(** C5: a read error is to make the reader fail.  A read error that ends the
    scan (here after one record, with no data left in the buffer) makes
    [Scan] return false; the loop ends, [Err] is not read again, and the
    reader returns the names read so far with a nil error, so [Validate]
    reports on them instead of returning the read failure. *)
Theorem read_error_ending_the_scan_is_dropped :
  getCgroupSubsystems
    (Opened (mkScanner [mkScan "cpu 1 1 1" None]
               (Some (SysErr "read /proc/cgroups: input/output error"))))
  = Returns (Slice ["cpu"], None)
  /\ Validate (fun s => s) (mkSysSpec (mkCgroupSpec ["cpu"; "memory"] []))
       (Opened (mkScanner [mkScan "cpu 1 1 1" None]
                  (Some (SysErr "read /proc/cgroups: input/output error"))))
       []
     = Returns (Nil, Slice [Errorf "missing required cgroups: memory"],
                [mkReportEvent "CGROUPS_CPU" "enabled" good;
                 mkReportEvent "CGROUPS_MEMORY" "missing" bad]).
Proof. split; reflexivity. Qed.

(** ** The checker: properties *)

Section ValidatorProperties.

Variable mapUpper : string -> string.

(** C2: when the reader returns the enabled set, a missing list that is
    not empty gives exactly one error (required tier) or one warning
    (optional tier), whose message is the fixed text and the missing names
    of that tier joined by spaces, in the order of the list of the
    specification; an empty missing list gives nil for its tier. *)
Theorem Validate_aggregates_per_tier (spec : SysSpec) (f : procCgroups)
    (subsystems : slice string) (r : Reporter) :
  getCgroupSubsystems f = Returns (subsystems, None) ->
  let missingRequired :=
    missingNames (elems subsystems) (Required (CgroupSpec spec)) in
  let missingOptional :=
    missingNames (elems subsystems) (Optional (CgroupSpec spec)) in
  exists (warns errs : slice error) (r' : Reporter),
    Validate mapUpper spec f r = Returns (warns, errs, r')
    /\ (missingRequired <> [] ->
        errs = Slice [Errorf ("missing required cgroups: "
                              ++ strings.Join missingRequired " ")])
    /\ (missingRequired = [] -> errs = Nil)
    /\ (missingOptional <> [] ->
        warns = Slice [Errorf ("missing optional cgroups: "
                               ++ strings.Join missingOptional " ")])
    /\ (missingOptional = [] -> warns = Nil).
Proof.
  intros Hread missingRequired missingOptional.
  rewrite (Validate_read mapUpper spec f subsystems r Hread).
  fold missingRequired missingOptional.
  eexists _, _, _. split; [reflexivity|].
  repeat split.
  - destruct missingRequired; [congruence|reflexivity].
  - intros ->. reflexivity.
  - destruct missingOptional; [congruence|reflexivity].
  - intros ->. reflexivity.
Qed.

(** C3: [validateCgroupSubsystems] sends the reporter exactly one event per
    declared name, in order; its key is "CGROUPS_" and the upper-cased
    name; a name of the enabled set is reported "enabled" and good, any
    other "missing", bad when required and warn when optional; the names
    returned are the absent ones, in the order of the list. *)
Theorem validateCgroupSubsystems_reports_each_name
    (cgroups : list string) (subsystems : slice string) (required : bool)
    (r : Reporter) :
  exists (missing : slice string) (events : list ReportEvent),
    validateCgroupSubsystems mapUpper cgroups subsystems required r
    = (missing, (r ++ events)%list)
    /\ Forall2 (reported mapUpper (elems subsystems) required)
         cgroups events
    /\ elems missing = missingNames (elems subsystems) cgroups.
Proof.
  rewrite validateCgroupSubsystems_eq. eexists _, _.
  split; [reflexivity|]. split.
  - apply Forall2_reportFor.
  - apply elems_missingSlice.
Qed.

(** C4: when the reader fails, [Validate] returns nil warnings and the one
    error that wraps the failure, whose message starts with "failed to get
    cgroup subsystems"; the reporter receives nothing. *)
Theorem Validate_reader_failure (spec : SysSpec) (f : procCgroups)
    (got : slice string) (err : error) (r : Reporter) :
  getCgroupSubsystems f = Returns (got, Some err) ->
  Validate mapUpper spec f r
  = Returns (Nil, Slice [Wrap err "failed to get cgroup subsystems"], r)
  /\ Error (Wrap err "failed to get cgroup subsystems")
     = "failed to get cgroup subsystems: " ++ Error err.
Proof.
  intros Hread.
  rewrite (Validate_failed mapUpper spec f got err r Hread).
  split; reflexivity.
Qed.

(** C7, amended: on a source that the reader reads, every entry of
    [Required] and then of [Optional] gives exactly one report event, in
    order; an entry is either present and not in the missing list of its
    pass, or absent and in it; a name of the enabled set is in neither
    missing list; and when no name is in both lists, every name falls in
    exactly one of present, missing required, missing optional. *)
Theorem Validate_classifies_each_entry (spec : SysSpec) (f : procCgroups)
    (subsystems : slice string) (r : Reporter) :
  getCgroupSubsystems f = Returns (subsystems, None) ->
  let required := Required (CgroupSpec spec) in
  let optional := Optional (CgroupSpec spec) in
  let enabled := elems subsystems in
  let p1 := validateCgroupSubsystems mapUpper required subsystems true r in
  let p2 :=
    validateCgroupSubsystems mapUpper optional subsystems false (snd p1) in
  exists (warns errs : slice error) (eventsR eventsO : list ReportEvent),
    Validate mapUpper spec f r
    = Returns (warns, errs, (r ++ eventsR ++ eventsO)%list)
    /\ snd p2 = (r ++ eventsR ++ eventsO)%list
    /\ Forall2 (reported mapUpper enabled true) required eventsR
    /\ Forall2 (reported mapUpper enabled false) optional eventsO
    /\ (forall name : string, In name required ->
          (In name enabled /\ ~ In name (elems (fst p1)))
          \/ (~ In name enabled /\ In name (elems (fst p1))))
    /\ (forall name : string, In name optional ->
          (In name enabled /\ ~ In name (elems (fst p2)))
          \/ (~ In name enabled /\ In name (elems (fst p2))))
    /\ (forall name : string, In name enabled ->
          ~ In name (elems (fst p1)) /\ ~ In name (elems (fst p2)))
    /\ ((forall name : string, In name required -> ~ In name optional) ->
        namesClassifiedOnce mapUpper spec subsystems r).
Proof.
  intros Hread required optional enabled p1 p2.
  assert (H1 : p1 = (missingSlice (missingNames enabled required),
                     (r ++ map (reportFor mapUpper enabled true)
                             required)%list))
    by apply validateCgroupSubsystems_eq.
  assert (H2 : p2 = (missingSlice (missingNames enabled optional),
                     (snd p1 ++ map (reportFor mapUpper enabled false)
                                  optional)%list))
    by apply validateCgroupSubsystems_eq.
  assert (M1 : forall name, In name (elems (fst p1))
                            <-> In name required /\ ~ In name enabled).
  { intros name. rewrite H1. cbn [fst].
    rewrite elems_missingSlice. apply In_missingNames. }
  assert (M2 : forall name, In name (elems (fst p2))
                            <-> In name optional /\ ~ In name enabled).
  { intros name. rewrite H2. cbn [fst].
    rewrite elems_missingSlice. apply In_missingNames. }
  exists (tierResult "optional" (missingNames enabled optional)),
         (tierResult "required" (missingNames enabled required)),
         (map (reportFor mapUpper enabled true) required),
         (map (reportFor mapUpper enabled false) optional).
  split; [apply (Validate_read mapUpper spec f subsystems r Hread)|].
  split.
  { rewrite H2. cbn [snd]. rewrite H1. cbn [snd].
    now rewrite <- app_assoc. }
  split; [apply Forall2_reportFor|].
  split; [apply Forall2_reportFor|].
  split.
  { intros name Hin. rewrite M1.
    destruct (in_dec string_dec name enabled) as [He|He]; tauto. }
  split.
  { intros name Hin. rewrite M2.
    destruct (in_dec string_dec name enabled) as [He|He]; tauto. }
  split.
  { intros name He. rewrite M1, M2. tauto. }
  intros Hdisjoint name Hin.
  change (classifiedOnce enabled (elems (fst p1)) (elems (fst p2)) name).
  unfold classifiedOnce. rewrite M1, M2.
  apply in_app_or in Hin.
  destruct (in_dec string_dec name enabled) as [He|He].
  - left. tauto.
  - destruct Hin as [Hr|Ho].
    + right. left. specialize (Hdisjoint name Hr). tauto.
    + right. right. assert (~ In name required).
      { intros Hr. exact (Hdisjoint name Hr Ho). }
      tauto.
Qed.

(** With both lists of the specification empty, on a source from which the
    reader returns a list, [Validate] returns nil warnings and nil errors
    and the reporter receives nothing. *)
Lemma Validate_nothing_declared (spec : SysSpec) (f : procCgroups)
    (subsystems : slice string) (r : Reporter) :
  Required (CgroupSpec spec) = [] ->
  Optional (CgroupSpec spec) = [] ->
  getCgroupSubsystems f = Returns (subsystems, None) ->
  Validate mapUpper spec f r = Returns (Nil, Nil, r).
Proof.
  intros Hreq Hopt Hread.
  rewrite (Validate_read mapUpper spec f subsystems r Hread), Hreq, Hopt.
  simpl. now rewrite app_nil_r.
Qed.

(** C9: two calls of [Validate] with the same specification on the same
    source, whatever the reporter has received before each, return the
    same warnings and the same errors and send the reporter the same
    events in the same order; if one call panics, so does the other, with
    the same message. *)
Theorem Validate_deterministic (spec : SysSpec) (f : procCgroups)
    (r1 r2 : Reporter) :
  match Validate mapUpper spec f r1, Validate mapUpper spec f r2 with
  | Returns (warns1, errs1, out1), Returns (warns2, errs2, out2) =>
      warns1 = warns2 /\ errs1 = errs2
      /\ exists events : list ReportEvent,
           out1 = (r1 ++ events)%list /\ out2 = (r2 ++ events)%list
  | Panics msg1, Panics msg2 => msg1 = msg2
  | _, _ => False
  end.
Proof.
  destruct (getCgroupSubsystems f) as [[subsystems [err|]]|msg] eqn:Hread.
  - rewrite (Validate_failed mapUpper spec f subsystems err r1 Hread),
            (Validate_failed mapUpper spec f subsystems err r2 Hread).
    repeat split. exists []. now rewrite !app_nil_r.
  - rewrite (Validate_read mapUpper spec f subsystems r1 Hread),
            (Validate_read mapUpper spec f subsystems r2 Hread).
    repeat split. eexists. split; reflexivity.
  - unfold Validate. rewrite Hread. reflexivity.
Qed.

End ValidatorProperties.

(** C10: membership in the enabled set is equality of the byte strings, so
    it is case-sensitive.  A declared name equal to an enabled name is
    found: it is reported enabled and not returned.  A declared name that no
    enabled name equals is returned as missing and reported missing, also
    when an enabled name has the same upper-cased form; the report then has
    the key that the enabled name would have. *)
Theorem membership_is_case_sensitive (mapUpper : string -> string)
    (cgroup : string) (subsystems : slice string) (required : bool)
    (r : Reporter) :
  (In cgroup (elems subsystems) ->
   validateCgroupSubsystems mapUpper [cgroup] subsystems required r
   = (Nil,
      (r ++ [mkReportEvent ("CGROUPS_" ++ strings.ToUpper mapUpper cgroup)
               "enabled" good])%list))
  /\ ((forall subsystem : string,
         In subsystem (elems subsystems) -> subsystem <> cgroup) ->
      validateCgroupSubsystems mapUpper [cgroup] subsystems required r
      = (Slice [cgroup],
         (r ++ [mkReportEvent
                  ("CGROUPS_" ++ strings.ToUpper mapUpper cgroup)
                  "missing" (if required then bad else warn)])%list)
      /\ forall subsystem : string,
           In subsystem (elems subsystems) ->
           strings.ToUpper mapUpper subsystem
           = strings.ToUpper mapUpper cgroup ->
           validateCgroupSubsystems mapUpper [cgroup] subsystems required r
           = (Slice [cgroup],
              (r ++ [mkReportEvent
                       ("CGROUPS_" ++ strings.ToUpper mapUpper subsystem)
                       "missing" (if required then bad else warn)])%list)).
Proof.
  rewrite validateCgroupSubsystems_eq. cbn [missingNames filter map].
  rewrite absent_found. unfold reportFor. split.
  - intros Hin. apply found_In in Hin. now rewrite Hin.
  - intros Hnone.
    assert (Hf : found cgroup (elems subsystems) = false).
    { destruct (found cgroup (elems subsystems)) eqn:Hf; [|reflexivity].
      apply found_In in Hf. now destruct (Hnone cgroup Hf). }
    rewrite Hf. split; [reflexivity|].
    intros subsystem _ ->. reflexivity.
Qed.

(** ** The theorems at concrete inputs *)

Example scenarioA_read :
  getCgroupSubsystems scenarioA = Returns (Slice ["cpu"; "pids"], None).
Proof. reflexivity. Qed.

Example scenarioA_validated :
  Validate (fun s => s) specA scenarioA []
  = Returns (Slice [Errorf "missing optional cgroups: blkio"],
             Slice [Errorf "missing required cgroups: memory"],
             [mkReportEvent "CGROUPS_CPU" "enabled" good;
              mkReportEvent "CGROUPS_MEMORY" "missing" bad;
              mkReportEvent "CGROUPS_PIDS" "enabled" good;
              mkReportEvent "CGROUPS_BLKIO" "missing" warn]).
Proof. reflexivity. Qed.

Lemma Validate_aggregates_per_tier_witness :
  getCgroupSubsystems scenarioA = Returns (Slice ["cpu"; "pids"], None)
  /\ exists (warns errs : slice error) (r' : Reporter),
       Validate (fun s => s) specA scenarioA [] = Returns (warns, errs, r')
       /\ errs = Slice [Errorf "missing required cgroups: memory"]
       /\ warns = Slice [Errorf "missing optional cgroups: blkio"].
Proof.
  split; [reflexivity|].
  destruct (Validate_aggregates_per_tier (fun s => s) specA scenarioA
              (Slice ["cpu"; "pids"]) [] eq_refl)
    as [warns [errs [r' [Hv [He [_ [Hw _]]]]]]].
  exists warns, errs, r'. split; [exact Hv|]. split.
  - apply He. discriminate.
  - apply Hw. discriminate.
Defined.

Lemma Validate_reader_failure_witness :
  getCgroupSubsystems
    (OpenFails (SysErr "open /proc/cgroups: no such file or directory"))
  = Returns (Nil,
             Some (SysErr "open /proc/cgroups: no such file or directory"))
  /\ Validate (fun s => s) specA
       (OpenFails (SysErr "open /proc/cgroups: no such file or directory"))
       []
     = Returns
         (Nil,
          Slice [Wrap (SysErr "open /proc/cgroups: no such file or directory")
                   "failed to get cgroup subsystems"],
          []).
Proof.
  split; [reflexivity|].
  exact (proj1 (Validate_reader_failure (fun s => s) specA
                  (OpenFails
                     (SysErr "open /proc/cgroups: no such file or directory"))
                  Nil
                  (SysErr "open /proc/cgroups: no such file or directory")
                  [] eq_refl)).
Defined.

(** C7 as it is written fails when a name is in both lists: with cpu
    required and optional and not enabled, the reporter receives two events
    for the one name, and cpu is missing required and missing optional at
    once. *)
Lemma name_in_both_lists_is_classified_twice :
  getCgroupSubsystems (fileOf []) = Returns (Slice [], None)
  /\ Validate (fun s => s) (mkSysSpec (mkCgroupSpec ["cpu"] ["cpu"]))
       (fileOf []) []
     = Returns (Slice [Errorf "missing optional cgroups: cpu"],
                Slice [Errorf "missing required cgroups: cpu"],
                [mkReportEvent "CGROUPS_CPU" "missing" bad;
                 mkReportEvent "CGROUPS_CPU" "missing" warn])
  /\ ~ namesClassifiedOnce (fun s => s)
         (mkSysSpec (mkCgroupSpec ["cpu"] ["cpu"])) (Slice []) [].
Proof.
  split; [reflexivity|]. split; [reflexivity|].
  intros Hall. specialize (Hall "cpu" (or_introl eq_refl)).
  unfold classifiedOnce in Hall. simpl in Hall.
  destruct Hall as [[[] _]|[[_ [_ Hno]]|[_ [Hno _]]]];
    apply Hno; left; reflexivity.
Qed.

Lemma Validate_classifies_each_entry_witness :
  getCgroupSubsystems scenarioA = Returns (Slice ["cpu"; "pids"], None)
  /\ namesClassifiedOnce (fun s => s) specA (Slice ["cpu"; "pids"]) [].
Proof.
  split; [reflexivity|].
  destruct (Validate_classifies_each_entry (fun s => s) specA scenarioA
              (Slice ["cpu"; "pids"]) [] eq_refl)
    as [warns [errs [eventsR [eventsO H]]]].
  apply H. intros name Hreq Hopt. simpl in Hreq, Hopt.
  destruct Hreq as [<-|[<-|[]]];
    destruct Hopt as [Hopt|[Hopt|[]]]; discriminate Hopt.
Defined.

Lemma Validate_nothing_declared_witness :
  Validate (fun s => s) (mkSysSpec (mkCgroupSpec [] [])) scenarioA []
  = Returns (Nil, Nil, []).
Proof.
  exact (Validate_nothing_declared (fun s => s)
           (mkSysSpec (mkCgroupSpec [] [])) scenarioA
           (Slice ["cpu"; "pids"]) [] eq_refl eq_refl eq_refl).
Defined.

Lemma membership_is_case_sensitive_witness :
  validateCgroupSubsystems (fun s => s) ["cpu"] (Slice ["cpu"]) true []
  = (Nil, [mkReportEvent "CGROUPS_CPU" "enabled" good])
  /\ validateCgroupSubsystems (fun s => s) ["CPU"] (Slice ["cpu"]) true []
     = (Slice ["CPU"], [mkReportEvent "CGROUPS_CPU" "missing" bad]).
Proof.
  split.
  - apply (proj1 (membership_is_case_sensitive (fun s => s) "cpu"
                    (Slice ["cpu"]) true [])).
    simpl. left. reflexivity.
  - destruct (membership_is_case_sensitive (fun s => s) "CPU"
                (Slice ["cpu"]) true []) as [_ Hmissing].
    destruct Hmissing as [_ Hkey].
    + intros subsystem [<-|[]]. discriminate.
    + apply (Hkey "cpu").
      * simpl. left. reflexivity.
      * reflexivity.
Defined.

(** ** The reader on any scanner *)

Lemma enabledNames_app (lines1 lines2 : list string) :
  enabledNames (lines1 ++ lines2)
  = (enabledNames lines1 ++ enabledNames lines2)%list.
Proof.
  unfold enabledNames. now rewrite filter_app, map_app.
Qed.

Lemma hasEmptyLine_app (lines1 lines2 : list string) :
  hasEmptyLine (lines1 ++ lines2)
  = hasEmptyLine lines1 || hasEmptyLine lines2.
Proof. apply existsb_app. Qed.

(** The loop passes the clean turns and keeps their enabled names. *)
Lemma scanLoop_clean (pre rest : list scan) :
  Forall cleanTurn pre ->
  forall got : list string,
    scanLoop (pre ++ rest) (Slice got)
    = scanLoop rest (Slice (got ++ enabledNames (map Text pre))).
Proof.
  induction 1 as [|t pre [Herr Htext] Hpre IH]; intros got.
  - simpl. now rewrite app_nil_r.
  - destruct t as [text err]. simpl in Herr, Htext. subst err.
    destruct text as [|c tail]; [congruence|].
    cbn [app map Text]. rewrite scanLoop_step, IH.
    now rewrite <- app_assoc, <- enabledNames_cons.
Qed.

(** Every scan is clean, or has a first turn that is not: one with an error,
    or one with an empty text and no error. *)
Lemma first_fault (turns : list scan) :
  Forall cleanTurn turns
  \/ exists (pre : list scan) (t : scan) (rest : list scan),
       turns = (pre ++ t :: rest)%list
       /\ Forall cleanTurn pre
       /\ ((exists err, Err t = Some err)
           \/ (Err t = None /\ Text t = "")).
Proof.
  induction turns as [|t turns IH].
  - left. constructor.
  - destruct (Err t) as [err|] eqn:Herr.
    + right. exists [], t, turns. repeat split; [constructor|].
      left. now exists err.
    + destruct (Text t) as [|c tail] eqn:Htext.
      * right. exists [], t, turns. repeat split; [constructor|].
        right. now split.
      * assert (Hclean : cleanTurn t).
        { split; [assumption|]. rewrite Htext. discriminate. }
        destruct IH as [Hall|[pre [t' [rest [Heq [Hpre Hfault]]]]]].
        -- left. now constructor.
        -- right. exists (t :: pre), t', rest. subst turns.
           repeat split; [now constructor|assumption].
Qed.

Lemma scanLoop_all_clean (turns : list scan) (got : list string) :
  Forall cleanTurn turns ->
  scanLoop turns (Slice got)
  = Returns (Slice (got ++ enabledNames (map Text turns)), None).
Proof.
  intros Hall. rewrite <- (app_nil_r turns) at 1.
  now rewrite (scanLoop_clean turns [] Hall).
Qed.

Lemma scanLoop_first_error (pre rest : list scan) (t : scan) (err : error)
    (got : list string) :
  Forall cleanTurn pre -> Err t = Some err ->
  scanLoop (pre ++ t :: rest) (Slice got) = Returns (Nil, Some err).
Proof.
  intros Hpre Herr. rewrite (scanLoop_clean pre (t :: rest) Hpre).
  cbn [scanLoop]. now rewrite Herr.
Qed.

Lemma scanLoop_first_empty (pre rest : list scan) (t : scan)
    (got : list string) :
  Forall cleanTurn pre -> Err t = None -> Text t = "" ->
  scanLoop (pre ++ t :: rest) (Slice got) = Panics indexPanic.
Proof.
  intros Hpre Herr Htext. rewrite (scanLoop_clean pre (t :: rest) Hpre).
  cbn [scanLoop]. now rewrite Herr, Htext.
Qed.

(** The three outcomes of the reader, by the first turn that is not clean. *)
Lemma getCgroupSubsystems_cases (f : procCgroups) :
  (exists err, f = OpenFails err
               /\ getCgroupSubsystems f = Returns (Nil, Some err))
  \/ (exists s, f = Opened s /\ Forall cleanTurn (scans s)
                /\ getCgroupSubsystems f
                   = Returns (Slice (enabledNames (map Text (scans s))),
                              None))
  \/ (exists s pre t rest err,
        f = Opened s /\ scans s = (pre ++ t :: rest)%list
        /\ Forall cleanTurn pre /\ Err t = Some err
        /\ getCgroupSubsystems f = Returns (Nil, Some err))
  \/ (exists s pre t rest,
        f = Opened s /\ scans s = (pre ++ t :: rest)%list
        /\ Forall cleanTurn pre /\ Err t = None /\ Text t = ""
        /\ getCgroupSubsystems f = Panics indexPanic).
Proof.
  destruct f as [err|s].
  - left. now exists err.
  - right. cbn [getCgroupSubsystems].
    destruct (first_fault (scans s))
      as [Hall|[pre [t [rest [Heq [Hpre [[err Herr]|[Herr Htext]]]]]]]].
    + left. exists s. repeat split; [assumption|].
      now rewrite scanLoop_all_clean.
    + right. left. exists s, pre, t, rest, err.
      repeat split; try assumption.
      rewrite Heq. now apply scanLoop_first_error.
    + right. right. exists s, pre, t, rest.
      repeat split; try assumption.
      rewrite Heq. now apply scanLoop_first_empty.
Qed.

(** X1: the reader returns a list with a nil error exactly when the file opens
    and every turn of the scanner is clean; the list is then not nil and
    holds the enabled names of the texts, in order. *)
Theorem reader_reads_iff_scan_is_clean (f : procCgroups)
    (subsystems : slice string) :
  getCgroupSubsystems f = Returns (subsystems, None)
  <-> exists s : Scanner,
        f = Opened s /\ Forall cleanTurn (scans s)
        /\ subsystems = Slice (enabledNames (map Text (scans s))).
Proof.
  split.
  - intros Hget.
    destruct (getCgroupSubsystems_cases f)
      as [[err [_ H]]|[[s [Hf [Hall H]]]
         |[[s [pre [t [rest [err [_ [_ [_ [_ H]]]]]]]]]
          |[s [pre [t [rest [_ [_ [_ [_ [_ H]]]]]]]]]]]];
      rewrite H in Hget; try discriminate.
    exists s. injection Hget as <-. now repeat split.
  - intros [s [-> [Hall ->]]]. cbn [getCgroupSubsystems].
    now rewrite scanLoop_all_clean.
Qed.

(** X2: the reader returns an error exactly when [os.Open] fails with it, or
    when it is the error of the first turn that is not clean; the list
    returned with it is nil, whatever was read before. *)
Theorem reader_fails_iff_open_or_first_fault (f : procCgroups)
    (subsystems : slice string) (err : error) :
  getCgroupSubsystems f = Returns (subsystems, Some err)
  <-> subsystems = Nil
      /\ (f = OpenFails err
          \/ exists (s : Scanner) (pre : list scan) (t : scan)
                    (rest : list scan),
               f = Opened s /\ scans s = (pre ++ t :: rest)%list
               /\ Forall cleanTurn pre /\ Err t = Some err).
Proof.
  split.
  - intros Hget.
    destruct (getCgroupSubsystems_cases f)
      as [[err' [Hf H]]|[[s [Hf [Hall H]]]
         |[[s [pre [t [rest [err' [Hf [Hs [Hpre [Herr H]]]]]]]]]
          |[s [pre [t [rest [_ [_ [_ [_ [_ H]]]]]]]]]]]];
      rewrite H in Hget; try discriminate.
    + injection Hget as <- <-. split; [reflexivity|]. now left.
    + injection Hget as <- <-. split; [reflexivity|].
      right. now exists s, pre, t, rest.
  - intros [-> [->|[s [pre [t [rest [-> [Hs [Hpre Herr]]]]]]]]].
    + reflexivity.
    + cbn [getCgroupSubsystems]. rewrite Hs.
      now apply scanLoop_first_error.
Qed.

(** X3: the reader panics exactly when the file opens and the first turn that is
    not clean has no error and an empty text; the panic is the index out of
    range of [text[0]]. *)
Theorem reader_panics_iff_empty_text_first (f : procCgroups) (msg : string) :
  getCgroupSubsystems f = Panics msg
  <-> msg = indexPanic
      /\ exists (s : Scanner) (pre : list scan) (t : scan)
                (rest : list scan),
           f = Opened s /\ scans s = (pre ++ t :: rest)%list
           /\ Forall cleanTurn pre /\ Err t = None /\ Text t = "".
Proof.
  split.
  - intros Hget.
    destruct (getCgroupSubsystems_cases f)
      as [[err' [Hf H]]|[[s [Hf [Hall H]]]
         |[[s [pre [t [rest [err' [Hf [Hs [Hpre [Herr H]]]]]]]]]
          |[s [pre [t [rest [Hf [Hs [Hpre [Herr [Htext H]]]]]]]]]]]];
      rewrite H in Hget; try discriminate.
    injection Hget as <-. split; [reflexivity|].
    now exists s, pre, t, rest.
  - intros [-> [s [pre [t [rest [-> [Hs [Hpre [Herr Htext]]]]]]]]].
    cbn [getCgroupSubsystems]. rewrite Hs.
    now apply scanLoop_first_empty.
Qed.

(** ** The reader on files read without an error *)

Lemma isComment_not_empty (line : string) :
  isComment line = true -> line <> "".
Proof. destruct line; [discriminate|discriminate]. Qed.

Lemma hasEmptyLine_cons (line : string) (lines : list string) :
  line <> "" -> hasEmptyLine (line :: lines) = hasEmptyLine lines.
Proof.
  intros Hne. unfold hasEmptyLine. cbn [existsb].
  destruct (String.eqb_spec "" line) as [Heq|_]; [congruence|reflexivity].
Qed.

(** The reader on a file is the same with and without a line that is not
    empty and is not the record of an enabled subsystem. *)
Lemma getCgroupSubsystems_without_line (lines1 lines2 : list string)
    (line : string) :
  line <> "" -> enabledRecord line = false ->
  getCgroupSubsystems (fileOf (lines1 ++ line :: lines2))
  = getCgroupSubsystems (fileOf (lines1 ++ lines2)).
Proof.
  intros Hne Hrec. rewrite !getCgroupSubsystems_fileOf.
  rewrite !hasEmptyLine_app, (hasEmptyLine_cons line lines2 Hne).
  rewrite !enabledNames_app, (enabledNames_cons line lines2).
  unfold enabledNames at 2. cbn [filter]. rewrite Hrec. reflexivity.
Qed.

Lemma Fields_after_space (line : string) :
  strings.Fields (String " " line) = strings.Fields line.
Proof. reflexivity. Qed.

(** A comment token with at least 4 fields and a 4th field other than "0"
    gives no name; the same token after one space is read as a record. *)
Lemma comment_token_after_space (line : string) :
  isComment line = true ->
  4 <= length (strings.Fields line) ->
  nth 3 (strings.Fields line) "" <> "0" ->
  getCgroupSubsystems (fileOf [line]) = Returns (Slice [], None)
  /\ getCgroupSubsystems (fileOf [String " " line])
     = Returns (Slice [nth 0 (strings.Fields line) ""], None).
Proof.
  intros Hc Hlen Hfourth. rewrite !getCgroupSubsystems_fileOf.
  rewrite (hasEmptyLine_cons line [] (isComment_not_empty line Hc)).
  rewrite (hasEmptyLine_cons (String " " line) []) by discriminate.
  cbn [hasEmptyLine existsb]. unfold enabledNames. cbn [filter].
  unfold enabledRecord. rewrite Hc, Fields_after_space.
  cbn [isComment negb andb map].
  replace (Ascii.eqb " " "#") with false by reflexivity.
  replace (4 <=? length (strings.Fields line)) with true
    by (symmetry; apply Nat.leb_le; exact Hlen).
  replace (nth 3 (strings.Fields line) "" =? "0")%string with false
    by (symmetry; apply String.eqb_neq; exact Hfourth).
  split; reflexivity.
Qed.

Lemma noBlank_app (s1 s2 : string) :
  noBlank (s1 ++ s2) = noBlank s1 && noBlank s2.
Proof.
  induction s1 as [|c s1 IH]; simpl; [reflexivity|].
  now rewrite IH, andb_assoc.
Qed.

Lemma spaceWidth_no_blank (c : ascii) (rest : string) :
  strings.spaceWidth (String c rest) = 0 ->
  strings.asciiSpace (strings.byte c) = false.
Proof.
  cbn [strings.spaceWidth].
  destruct (strings.asciiSpace (strings.byte c)); [discriminate|reflexivity].
Qed.

(** The fields hold a byte and no ASCII blank. *)
Lemma fieldsFrom_fields (s : string) :
  forall (skip : nat) (cur : string),
    noBlank cur = true ->
    Forall (fun field => field <> "" /\ noBlank field = true)
      (strings.fieldsFrom s skip cur).
Proof.
  assert (Hflush : forall cur fields,
             noBlank cur = true ->
             Forall (fun field => field <> "" /\ noBlank field = true) fields ->
             Forall (fun field => field <> "" /\ noBlank field = true)
               (strings.flush cur fields)).
  { intros cur fields Hcur Hfields. destruct cur; simpl; [assumption|].
    constructor; [|assumption]. split; [discriminate|assumption]. }
  induction s as [|c rest IH]; intros skip cur Hcur.
  - simpl. apply Hflush; [assumption|constructor].
  - cbn [strings.fieldsFrom]. destruct skip as [|k].
    + destruct (strings.spaceWidth (String c rest)) as [|k] eqn:Hw.
      * apply IH. rewrite noBlank_app, Hcur. simpl.
        now rewrite (spaceWidth_no_blank c rest Hw).
      * apply Hflush; [assumption|]. now apply IH.
    + now apply IH.
Qed.

Lemma enabledNames_fields (lines : list string) :
  Forall (fun name => name <> "" /\ noBlank name = true)
    (enabledNames lines).
Proof.
  unfold enabledNames. apply Forall_forall. intros name Hin.
  apply in_map_iff in Hin as [line [<- Hline]].
  apply filter_In in Hline as [_ Hrec]. unfold enabledRecord in Hrec.
  apply andb_true_iff in Hrec as [Hrec _].
  apply andb_true_iff in Hrec as [_ Hlen]. apply Nat.leb_le in Hlen.
  pose proof (fieldsFrom_fields line 0 "" eq_refl) as Hall.
  rewrite Forall_forall in Hall. apply Hall.
  apply nth_In. unfold strings.Fields in Hlen. lia.
Qed.

(** X7: every name that the reader returns holds at least one byte and no
    ASCII blank. *)
Theorem reader_names_are_fields (f : procCgroups)
    (subsystems : slice string) :
  getCgroupSubsystems f = Returns (subsystems, None) ->
  Forall (fun name => name <> "" /\ noBlank name = true)
    (elems subsystems).
Proof.
  intros Hget.
  destruct (getCgroupSubsystems_cases f)
    as [[err [_ H]]|[[s [Hf [Hall H]]]
       |[[s [pre [t [rest [err [_ [_ [_ [_ H]]]]]]]]]
        |[s [pre [t [rest [_ [_ [_ [_ [_ H]]]]]]]]]]]];
    rewrite H in Hget; try discriminate.
  injection Hget as <-. apply enabledNames_fields.
Qed.

Lemma reader_names_are_fields_witness :
  Forall (fun name => name <> "" /\ noBlank name = true) ["cpu"; "pids"].
Proof.
  exact (reader_names_are_fields scenarioA (Slice ["cpu"; "pids"]) eq_refl).
Defined.

(** ** The checker and the enabled set *)

Lemma found_ext (enabled1 enabled2 : list string) (cgroup : string) :
  (forall name : string, In name enabled1 <-> In name enabled2) ->
  found cgroup enabled1 = found cgroup enabled2.
Proof.
  intros Hsame.
  destruct (found cgroup enabled1) eqn:H1, (found cgroup enabled2) eqn:H2;
    try reflexivity.
  - apply found_In, Hsame, found_In in H1. congruence.
  - apply found_In, Hsame, found_In in H2. congruence.
Qed.

Lemma missingNames_ext (enabled1 enabled2 names : list string) :
  (forall name : string, In name enabled1 <-> In name enabled2) ->
  missingNames enabled1 names = missingNames enabled2 names.
Proof.
  intros Hsame. unfold missingNames. apply filter_ext. intros name.
  now rewrite !absent_found, (found_ext enabled1 enabled2 name Hsame).
Qed.

Lemma reportFor_ext (mapUpper : string -> string)
    (enabled1 enabled2 : list string) (required : bool) (names : list string) :
  (forall name : string, In name enabled1 <-> In name enabled2) ->
  map (reportFor mapUpper enabled1 required) names
  = map (reportFor mapUpper enabled2 required) names.
Proof.
  intros Hsame. apply map_ext. intros name. unfold reportFor.
  now rewrite (found_ext enabled1 enabled2 name Hsame).
Qed.

Lemma missingNames_app (enabled names1 names2 : list string) :
  missingNames enabled (names1 ++ names2)
  = (missingNames enabled names1 ++ missingNames enabled names2)%list.
Proof. apply filter_app. Qed.

(** X8: the checker reads the enabled names as a set: two lists of enabled
    names with the same members, in any order and with any repetitions,
    give the same missing names and the same report events. *)
Theorem validateCgroupSubsystems_reads_a_set (mapUpper : string -> string)
    (cgroups : list string) (subsystems1 subsystems2 : slice string)
    (required : bool) (r : Reporter) :
  (forall name : string,
      In name (elems subsystems1) <-> In name (elems subsystems2)) ->
  validateCgroupSubsystems mapUpper cgroups subsystems1 required r
  = validateCgroupSubsystems mapUpper cgroups subsystems2 required r.
Proof.
  intros Hsame. rewrite !validateCgroupSubsystems_eq.
  now rewrite (missingNames_ext _ _ cgroups Hsame),
              (reportFor_ext mapUpper _ _ required cgroups Hsame).
Qed.

Lemma validateCgroupSubsystems_reads_a_set_witness :
  validateCgroupSubsystems (fun s => s) ["cpu"; "memory"; "pids"]
    (Slice ["cpu"; "pids"]) true []
  = validateCgroupSubsystems (fun s => s) ["cpu"; "memory"; "pids"]
      (Slice ["pids"; "cpu"; "pids"]) true [].
Proof.
  apply (validateCgroupSubsystems_reads_a_set (fun s => s)
           ["cpu"; "memory"; "pids"] (Slice ["cpu"; "pids"])
           (Slice ["pids"; "cpu"; "pids"]) true []).
  intros name. simpl. tauto.
Defined.

(** X9: enabling more subsystems never makes a declared name missing: when
    every name of one enabled set is in another, the names missing against
    the larger set are among those missing against the smaller one. *)
Theorem more_enabled_fewer_missing (mapUpper : string -> string)
    (cgroups : list string) (fewer more : slice string) (required : bool)
    (r1 r2 : Reporter) :
  incl (elems fewer) (elems more) ->
  incl
    (elems (fst (validateCgroupSubsystems mapUpper cgroups more required r2)))
    (elems (fst (validateCgroupSubsystems mapUpper cgroups fewer required r1))).
Proof.
  intros Hincl name. rewrite !validateCgroupSubsystems_eq. cbn [fst].
  rewrite !elems_missingSlice, !In_missingNames.
  intros [Hin Hout]. split; [assumption|].
  intros Hfew. apply Hout, Hincl, Hfew.
Qed.

Lemma more_enabled_fewer_missing_witness :
  incl
    (elems (fst (validateCgroupSubsystems (fun s => s)
                   ["cpu"; "memory"; "pids"] (Slice ["cpu"; "pids"])
                   true [])))
    (elems (fst (validateCgroupSubsystems (fun s => s)
                   ["cpu"; "memory"; "pids"] (Slice ["cpu"]) true []))).
Proof.
  apply (more_enabled_fewer_missing (fun s => s) ["cpu"; "memory"; "pids"]
           (Slice ["cpu"]) (Slice ["cpu"; "pids"]) true [] []).
  intros name. simpl. tauto.
Defined.

(** X10: checking a list of declared names made of two parts is checking the
    first part and then the second with the reporter left by the first: the
    events are the same and the missing names are those of the first part
    followed by those of the second. *)
Theorem validateCgroupSubsystems_app (mapUpper : string -> string)
    (cgroups1 cgroups2 : list string) (subsystems : slice string)
    (required : bool) (r : Reporter) :
  snd (validateCgroupSubsystems mapUpper (cgroups1 ++ cgroups2) subsystems
         required r)
  = snd (validateCgroupSubsystems mapUpper cgroups2 subsystems required
           (snd (validateCgroupSubsystems mapUpper cgroups1 subsystems
                   required r)))
  /\ elems (fst (validateCgroupSubsystems mapUpper (cgroups1 ++ cgroups2)
                   subsystems required r))
     = (elems (fst (validateCgroupSubsystems mapUpper cgroups1 subsystems
                      required r))
        ++ elems (fst (validateCgroupSubsystems mapUpper cgroups2 subsystems
                         required r)))%list.
Proof.
  rewrite !validateCgroupSubsystems_eq. cbn [fst snd].
  rewrite !elems_missingSlice, missingNames_app, map_app, app_assoc.
  split; reflexivity.
Qed.

(** ** What [Validate] returns *)

Lemma tierResult_Nil (tier : string) (missing : list string) :
  tierResult tier missing = Nil <-> missing = [].
Proof. destruct missing; simpl; split; congruence. Qed.

Lemma missingNames_nil (enabled names : list string) :
  missingNames enabled names = [] <-> incl names enabled.
Proof.
  split.
  - intros Hnil name Hin.
    destruct (in_dec string_dec name enabled) as [He|He]; [assumption|].
    assert (Hm : In name (missingNames enabled names))
      by (apply In_missingNames; now split).
    rewrite Hnil in Hm. destruct Hm.
  - intros Hincl. destruct (missingNames enabled names) as [|name l] eqn:Hm;
      [reflexivity|].
    assert (Hin : In name (missingNames enabled names))
      by (rewrite Hm; now left).
    apply In_missingNames in Hin as [Hin Hout].
    destruct (Hout (Hincl name Hin)).
Qed.

(** X11: on a source that the reader reads, [Validate] returns no error
    exactly when every required name is in the enabled set, and no warning
    exactly when every optional name is. *)
Theorem Validate_clean_iff_all_enabled (mapUpper : string -> string)
    (spec : SysSpec) (f : procCgroups) (subsystems : slice string)
    (r : Reporter) :
  getCgroupSubsystems f = Returns (subsystems, None) ->
  exists (warns errs : slice error) (r' : Reporter),
    Validate mapUpper spec f r = Returns (warns, errs, r')
    /\ (errs = Nil
        <-> incl (Required (CgroupSpec spec)) (elems subsystems))
    /\ (warns = Nil
        <-> incl (Optional (CgroupSpec spec)) (elems subsystems)).
Proof.
  intros Hread. rewrite (Validate_read mapUpper spec f subsystems r Hread).
  eexists _, _, _. split; [reflexivity|].
  split; rewrite tierResult_Nil; apply missingNames_nil.
Qed.

Lemma Validate_clean_iff_all_enabled_witness :
  exists (warns errs : slice error) (r' : Reporter),
    Validate (fun s => s) (mkSysSpec (mkCgroupSpec ["cpu"] ["blkio"]))
      scenarioA [] = Returns (warns, errs, r')
    /\ errs = Nil.
Proof.
  destruct (Validate_clean_iff_all_enabled (fun s => s)
              (mkSysSpec (mkCgroupSpec ["cpu"] ["blkio"])) scenarioA
              (Slice ["cpu"; "pids"]) [] eq_refl)
    as [warns [errs [r' [Hv [Herrs _]]]]].
  exists warns, errs, r'. split; [exact Hv|].
  apply Herrs. intros name. simpl. tauto.
Defined.

Lemma string_app_assoc (s1 s2 s3 : string) :
  (s1 ++ s2) ++ s3 = s1 ++ s2 ++ s3.
Proof. induction s1 as [|c s1 IH]; simpl; [reflexivity|now rewrite IH]. Qed.

Lemma string_app_nil_r (s : string) : s ++ "" = s.
Proof. induction s as [|c s IH]; simpl; [reflexivity|now rewrite IH]. Qed.

Lemma hasSubstring_after (pre s sub : string) :
  hasSubstring s sub -> hasSubstring (pre ++ s) sub.
Proof.
  intros [p [q ->]]. exists (pre ++ p), q. now rewrite string_app_assoc.
Qed.

(** Every element occurs in the joined string. *)
Lemma Join_hasSubstring (names : list string) (sep name : string) :
  In name names -> hasSubstring (strings.Join names sep) name.
Proof.
  induction names as [|first rest IH]; intros Hin; [destruct Hin|].
  cbn [strings.Join]. destruct Hin as [->|Hin].
  - destruct rest as [|second rest].
    + exists "", "". now rewrite string_app_nil_r.
    + exists "", (sep ++ strings.Join (second :: rest) sep). reflexivity.
  - destruct rest as [|second rest]; [destruct Hin|].
    apply hasSubstring_after, hasSubstring_after, IH, Hin.
Qed.

Lemma tierResult_names (tier : string) (missing : list string)
    (name : string) :
  In name missing ->
  exists e : error,
    tierResult tier missing = Slice [e] /\ hasSubstring (Error e) name.
Proof.
  intros Hin. destruct missing as [|first rest]; [destruct Hin|].
  eexists. split; [reflexivity|]. cbn [Error].
  apply hasSubstring_after, Join_hasSubstring, Hin.
Qed.

(** X12: on a source that the reader reads, every required name that is not
    enabled occurs in the message of the one error returned, and every
    optional name that is not enabled occurs in the message of the one
    warning returned. *)
Theorem Validate_message_names_each_missing (mapUpper : string -> string)
    (spec : SysSpec) (f : procCgroups) (subsystems : slice string)
    (r : Reporter) :
  getCgroupSubsystems f = Returns (subsystems, None) ->
  exists (warns errs : slice error) (r' : Reporter),
    Validate mapUpper spec f r = Returns (warns, errs, r')
    /\ (forall name : string,
          In name (Required (CgroupSpec spec)) ->
          ~ In name (elems subsystems) ->
          exists e : error,
            errs = Slice [e] /\ hasSubstring (Error e) name)
    /\ (forall name : string,
          In name (Optional (CgroupSpec spec)) ->
          ~ In name (elems subsystems) ->
          exists e : error,
            warns = Slice [e] /\ hasSubstring (Error e) name).
Proof.
  intros Hread. rewrite (Validate_read mapUpper spec f subsystems r Hread).
  eexists _, _, _. split; [reflexivity|].
  split; intros name Hin Hout; apply tierResult_names, In_missingNames;
    now split.
Qed.

Lemma Validate_message_names_each_missing_witness :
  exists (warns errs : slice error) (r' : Reporter) (e : error),
    Validate (fun s => s) specA scenarioA [] = Returns (warns, errs, r')
    /\ errs = Slice [e] /\ hasSubstring (Error e) "memory".
Proof.
  destruct (Validate_message_names_each_missing (fun s => s) specA scenarioA
              (Slice ["cpu"; "pids"]) [] eq_refl)
    as [warns [errs [r' [Hv [Herrs _]]]]].
  destruct (Herrs "memory") as [e [He Hsub]].
  - simpl. right. left. reflexivity.
  - simpl. intros [H|[H|[]]]; discriminate H.
  - exists warns, errs, r', e. now repeat split.
Defined.

Lemma Exists_severity (mapUpper : string -> string) (enabled : list string)
    (required : bool) (names : list string) (result : ValidationResultType) :
  Exists (fun ev => severity ev = result)
    (map (reportFor mapUpper enabled required) names)
  <-> (result = good /\ exists name, In name names /\ In name enabled)
      \/ (result = (if required then bad else warn)
          /\ missingNames enabled names <> []).
Proof.
  rewrite Exists_exists. split.
  - intros [ev [Hin Hsev]]. apply in_map_iff in Hin as [name [<- Hin]].
    unfold reportFor in Hsev.
    destruct (found name enabled) eqn:Hf; cbn [severity] in Hsev.
    + left. split; [congruence|]. exists name. split; [assumption|].
      now apply found_In.
    + right. split; [congruence|]. intros Hnil.
      assert (Hm : In name (missingNames enabled names)).
      { apply In_missingNames. split; [assumption|].
        intros He. apply found_In in He. congruence. }
      rewrite Hnil in Hm. destruct Hm.
  - intros [[-> [name [Hin He]]]|[-> Hne]].
    + exists (reportFor mapUpper enabled required name). split.
      * apply in_map, Hin.
      * unfold reportFor. apply found_In in He. now rewrite He.
    + destruct (missingNames enabled names) as [|name l] eqn:Hm;
        [congruence|].
      assert (Hin : In name (missingNames enabled names))
        by (rewrite Hm; now left).
      apply In_missingNames in Hin as [Hin Hout].
      exists (reportFor mapUpper enabled required name). split.
      * apply in_map, Hin.
      * unfold reportFor.
        destruct (found name enabled) eqn:Hf; [|reflexivity].
        apply found_In in Hf. contradiction.
Qed.

(** X13: on a source that the reader reads, [Validate] returns an error
    exactly when it has reported some item with severity bad, and a warning
    exactly when it has reported some item with severity warn. *)
Theorem Validate_error_iff_bad_event (mapUpper : string -> string)
    (spec : SysSpec) (f : procCgroups) (subsystems : slice string)
    (r : Reporter) :
  getCgroupSubsystems f = Returns (subsystems, None) ->
  exists (warns errs : slice error) (events : list ReportEvent),
    Validate mapUpper spec f r = Returns (warns, errs, (r ++ events)%list)
    /\ (errs <> Nil <-> Exists (fun ev => severity ev = bad) events)
    /\ (warns <> Nil <-> Exists (fun ev => severity ev = warn) events).
Proof.
  intros Hread. rewrite (Validate_read mapUpper spec f subsystems r Hread).
  eexists _, _, _. split; [reflexivity|].
  rewrite !tierResult_Nil, !Exists_app, !Exists_severity. cbn.
  split; split.
  - intros Hne. left. right. now split.
  - intros [[[H _]|[_ H]]|[[H _]|[H _]]]; try discriminate H. exact H.
  - intros Hne. right. right. now split.
  - intros [[[H _]|[H _]]|[[H _]|[_ H]]]; try discriminate H. exact H.
Qed.

Lemma Validate_error_iff_bad_event_witness :
  exists (warns errs : slice error) (events : list ReportEvent),
    Validate (fun s => s) specA scenarioA []
    = Returns (warns, errs, events)
    /\ Exists (fun ev => severity ev = bad) events.
Proof.
  destruct (Validate_error_iff_bad_event (fun s => s) specA scenarioA
              (Slice ["cpu"; "pids"]) [] eq_refl)
    as [warns [errs [events [Hv [Herrs _]]]]].
  exists warns, errs, events. split; [exact Hv|].
  apply Herrs. cbv in Hv. injection Hv as _ <- _. discriminate.
Defined.

Lemma tierResult_len (tier : string) (missing : list string) :
  len (tierResult tier missing) <= 1.
Proof. destruct missing; unfold len; cbn [tierResult elems length]; lia. Qed.

(** X14: whatever the source, a call of [Validate] that returns gives at
    most one warning and at most one error, keeps every event that the
    reporter had received, and adds either no event or one event for each
    entry of the two lists. *)
Theorem Validate_returns_at_most_one_per_tier (mapUpper : string -> string)
    (spec : SysSpec) (f : procCgroups) (r r' : Reporter)
    (warns errs : slice error) :
  Validate mapUpper spec f r = Returns (warns, errs, r') ->
  len warns <= 1 /\ len errs <= 1
  /\ exists events : list ReportEvent,
       r' = (r ++ events)%list
       /\ (events = []
           \/ length events
              = length (Required (CgroupSpec spec))
                + length (Optional (CgroupSpec spec))).
Proof.
  destruct (getCgroupSubsystems f) as [[subsystems [err|]]|msg] eqn:Hread.
  - rewrite (Validate_failed mapUpper spec f subsystems err r Hread).
    intros H. injection H as <- <- <-.
    split; [cbn; lia|]. split; [cbn; lia|].
    exists []. split; [now rewrite app_nil_r|now left].
  - rewrite (Validate_read mapUpper spec f subsystems r Hread).
    intros H. injection H as <- <- <-.
    split; [apply tierResult_len|]. split; [apply tierResult_len|].
    eexists. split; [reflexivity|]. right.
    now rewrite length_app, !length_map.
  - unfold Validate. rewrite Hread. discriminate.
Qed.

Lemma Validate_returns_at_most_one_per_tier_witness :
  len (Slice [Errorf "missing optional cgroups: blkio"]) <= 1
  /\ len (Slice [Errorf "missing required cgroups: memory"]) <= 1.
Proof.
  destruct (Validate_returns_at_most_one_per_tier (fun s => s) specA
              scenarioA [] _ _ _ eq_refl) as [Hw [He _]].
  split; [exact Hw|exact He].
Defined.

Lemma hasEmptyLine_Permutation (lines1 lines2 : list string) :
  Permutation lines1 lines2 -> hasEmptyLine lines1 = hasEmptyLine lines2.
Proof.
  intros Hperm. unfold hasEmptyLine.
  destruct (existsb (String.eqb "") lines1) eqn:H1,
           (existsb (String.eqb "") lines2) eqn:H2; try reflexivity.
  - apply existsb_exists in H1 as [line [Hin Heq]].
    assert (Hex : existsb (String.eqb "") lines2 = true).
    { apply existsb_exists. exists line. split; [|assumption].
      now apply (Permutation_in line Hperm). }
    congruence.
  - apply existsb_exists in H2 as [line [Hin Heq]].
    assert (Hex : existsb (String.eqb "") lines1 = true).
    { apply existsb_exists. exists line. split; [|assumption].
      now apply (Permutation_in line (Permutation_sym Hperm)). }
    congruence.
Qed.

Lemma enabledNames_Permutation (lines1 lines2 : list string) :
  Permutation lines1 lines2 ->
  forall name : string,
    In name (enabledNames lines1) <-> In name (enabledNames lines2).
Proof.
  intros Hperm name. unfold enabledNames.
  rewrite !in_map_iff. split; intros [line [Hname Hin]];
    exists line; split; try assumption;
    apply filter_In in Hin as [Hin Hrec]; apply filter_In; split;
    try assumption.
  - now apply (Permutation_in line Hperm).
  - now apply (Permutation_in line (Permutation_sym Hperm)).
Qed.

(** The order of the tokens does not matter when the scan has no error. *)
Lemma Validate_ignores_token_order (mapUpper : string -> string)
    (spec : SysSpec) (lines1 lines2 : list string) (r : Reporter) :
  Permutation lines1 lines2 ->
  Validate mapUpper spec (fileOf lines1) r
  = Validate mapUpper spec (fileOf lines2) r.
Proof.
  intros Hperm.
  pose proof (getCgroupSubsystems_fileOf lines1) as H1.
  pose proof (getCgroupSubsystems_fileOf lines2) as H2.
  rewrite <- (hasEmptyLine_Permutation lines1 lines2 Hperm) in H2.
  destruct (hasEmptyLine lines1).
  - unfold Validate. now rewrite H1, H2.
  - rewrite (Validate_read mapUpper spec _ _ r H1),
            (Validate_read mapUpper spec _ _ r H2).
    cbn [elems].
    pose proof (enabledNames_Permutation lines1 lines2 Hperm) as Hsame.
    now rewrite !(missingNames_ext _ _ _ Hsame),
                !(reportFor_ext mapUpper _ _ _ _ Hsame).
Qed.

(** X16: the two tiers are independent: on the same source, two
    specifications with the same required names get the same errors whatever
    their optional names, and two with the same optional names get the same
    warnings whatever their required names; missing required names do not
    stop the optional pass. *)
Theorem Validate_tiers_are_independent (mapUpper : string -> string)
    (spec1 spec2 : SysSpec) (f : procCgroups) (r1 r2 : Reporter) :
  match Validate mapUpper spec1 f r1, Validate mapUpper spec2 f r2 with
  | Returns (warns1, errs1, _), Returns (warns2, errs2, _) =>
      (Required (CgroupSpec spec1) = Required (CgroupSpec spec2) ->
       errs1 = errs2)
      /\ (Optional (CgroupSpec spec1) = Optional (CgroupSpec spec2) ->
          warns1 = warns2)
  | Panics msg1, Panics msg2 => msg1 = msg2
  | _, _ => False
  end.
Proof.
  destruct (getCgroupSubsystems f) as [[subsystems [err|]]|msg] eqn:Hread.
  - rewrite (Validate_failed mapUpper spec1 f subsystems err r1 Hread),
            (Validate_failed mapUpper spec2 f subsystems err r2 Hread).
    split; reflexivity.
  - rewrite (Validate_read mapUpper spec1 f subsystems r1 Hread),
            (Validate_read mapUpper spec2 f subsystems r2 Hread).
    split; intros ->; reflexivity.
  - unfold Validate. rewrite Hread. reflexivity.
Qed.

(** X17: a read error met while [Scan] still returns true discards what was
    read: whatever clean turns came before it, and whatever comes after,
    [Validate] returns no warning and the one error that wraps the read
    error, and the reporter receives nothing. *)
Theorem Validate_read_error_discards_records (mapUpper : string -> string)
    (spec : SysSpec) (pre rest : list scan) (t : scan) (err : error)
    (final : option error) (r : Reporter) :
  Forall cleanTurn pre -> Err t = Some err ->
  Validate mapUpper spec (Opened (mkScanner (pre ++ t :: rest) final)) r
  = Returns (Nil, Slice [Wrap err "failed to get cgroup subsystems"], r).
Proof.
  intros Hpre Herr. apply (Validate_failed mapUpper spec _ Nil err r).
  cbn [getCgroupSubsystems scans]. now apply scanLoop_first_error.
Qed.

Lemma Validate_read_error_discards_records_witness :
  Validate (fun s => s) specA
    (Opened (mkScanner
               ([mkScan "cpu 1 1 1" None]
                ++ mkScan "memo" (Some (SysErr "input/output error"))
                   :: [mkScan "pids 3 1 1" None])
               None))
    []
  = Returns (Nil,
             Slice [Wrap (SysErr "input/output error")
                      "failed to get cgroup subsystems"],
             []).
Proof.
  apply (Validate_read_error_discards_records (fun s => s) specA
           [mkScan "cpu 1 1 1" None] [mkScan "pids 3 1 1" None]
           (mkScan "memo" (Some (SysErr "input/output error")))
           (SysErr "input/output error") None []).
  - constructor; [|constructor]. split; [reflexivity|discriminate].
  - reflexivity.
Defined.

Lemma enabledNames_comments (lines : list string) :
  (forall line : string, In line lines -> isComment line = true) ->
  enabledNames lines = [].
Proof.
  intros Hall. unfold enabledNames.
  replace (filter enabledRecord lines) with (@nil string); [reflexivity|].
  symmetry. induction lines as [|line lines IH]; [reflexivity|].
  cbn [filter]. unfold enabledRecord at 1.
  rewrite (Hall line (or_introl eq_refl)). cbn [negb andb].
  apply IH. intros l Hin. apply Hall. now right.
Qed.

Lemma hasEmptyLine_comments (lines : list string) :
  (forall line : string, In line lines -> isComment line = true) ->
  hasEmptyLine lines = false.
Proof.
  intros Hall. induction lines as [|line lines IH]; [reflexivity|].
  rewrite hasEmptyLine_cons.
  - apply IH. intros l Hin. apply Hall. now right.
  - apply isComment_not_empty, Hall. now left.
Qed.

Lemma missingNames_none_enabled (names : list string) :
  missingNames [] names = names.
Proof.
  unfold missingNames. induction names as [|name names IH];
    [reflexivity|]. cbn [filter absent existsb negb]. now rewrite IH.
Qed.

(** X18: a file with no line, or with comment lines only, enables nothing:
    every declared name is reported missing (bad when required, warn when
    optional), the error lists all the required names and the warning all
    the optional names, in the order of the specification. *)
Theorem Validate_on_file_of_comments (mapUpper : string -> string)
    (spec : SysSpec) (lines : list string) (r : Reporter) :
  (forall line : string, In line lines -> isComment line = true) ->
  Validate mapUpper spec (fileOf lines) r
  = Returns
      (tierResult "optional" (Optional (CgroupSpec spec)),
       tierResult "required" (Required (CgroupSpec spec)),
       (r ++ map (fun cgroup =>
                    mkReportEvent
                      ("CGROUPS_" ++ strings.ToUpper mapUpper cgroup)
                      "missing" bad)
               (Required (CgroupSpec spec))
          ++ map (fun cgroup =>
                    mkReportEvent
                      ("CGROUPS_" ++ strings.ToUpper mapUpper cgroup)
                      "missing" warn)
               (Optional (CgroupSpec spec)))%list).
Proof.
  intros Hall.
  assert (Hread : getCgroupSubsystems (fileOf lines)
                  = Returns (Slice [], None)).
  { rewrite getCgroupSubsystems_fileOf, (hasEmptyLine_comments lines Hall).
    now rewrite (enabledNames_comments lines Hall). }
  rewrite (Validate_read mapUpper spec _ _ r Hread). cbn [elems].
  now rewrite !missingNames_none_enabled.
Qed.

Lemma Validate_on_file_of_comments_witness :
  Validate (fun s => s) specA
    (fileOf ["#subsys_name hierarchy num_cgroups enabled"]) []
  = Returns
      (Slice [Errorf "missing optional cgroups: pids blkio"],
       Slice [Errorf "missing required cgroups: cpu memory"],
       [mkReportEvent "CGROUPS_CPU" "missing" bad;
        mkReportEvent "CGROUPS_MEMORY" "missing" bad;
        mkReportEvent "CGROUPS_PIDS" "missing" warn;
        mkReportEvent "CGROUPS_BLKIO" "missing" warn]).
Proof.
  apply (Validate_on_file_of_comments (fun s => s) specA
           ["#subsys_name hierarchy num_cgroups enabled"] []).
  intros line [<-|[]]. reflexivity.
Defined.

(** ** Files as [bufio.ScanLines] scans them *)

Example linesOf_final_newline :
  linesOf ("cpu 1 1 1" ++ newline ++ "pids 3 1 1" ++ newline)
  = ["cpu 1 1 1"; "pids 3 1 1"].
Proof. reflexivity. Qed.

Example linesOf_no_final_newline :
  linesOf ("cpu 1 1 1" ++ newline ++ "pids 3 1 1")
  = ["cpu 1 1 1"; "pids 3 1 1"].
Proof. reflexivity. Qed.

Example dropCR_line :
  dropCR ("cpu 1 1 1" ++ String (ascii_of_nat 13) "") = "cpu 1 1 1".
Proof. reflexivity. Qed.

Lemma lineTurns_short (lines : list string) :
  Forall (fun line => tooLong line = false) lines ->
  lineTurns lines = map (fun l => mkScan l None) (map dropCR lines)
  /\ linesErr lines = None.
Proof.
  induction 1 as [|line lines Hline _ [IHt IHe]]; [now split|].
  cbn [lineTurns linesErr map]. rewrite Hline, IHt, IHe. now split.
Qed.

(** A file whose lines are all shorter than 64 KiB is scanned to its end:
    its turns are its lines with one trailing carriage return dropped. *)
Lemma fileLines_short (lines : list string) :
  Forall (fun line => tooLong line = false) lines ->
  fileLines lines = fileOf (map dropCR lines).
Proof.
  intros Hshort. destruct (lineTurns_short lines Hshort) as [Ht He].
  unfold fileLines, fileOf. now rewrite Ht, He.
Qed.

Lemma lineTurns_app (lines1 lines2 : list string) :
  Forall (fun line => tooLong line = false) lines1 ->
  lineTurns (lines1 ++ lines2) = (lineTurns lines1 ++ lineTurns lines2)%list.
Proof.
  induction 1 as [|line lines1 Hline _ IH]; [reflexivity|].
  cbn [app lineTurns]. now rewrite Hline, IH.
Qed.

Lemma isComment_dropCR (line : string) :
  isComment (dropCR line) = isComment line.
Proof.
  destruct line as [|c rest]; [reflexivity|].
  destruct rest as [|c' rest]; [|reflexivity].
  cbn [dropCR isComment].
  destruct (strings.byte c =? 13) eqn:Hcr; [|reflexivity].
  apply Nat.eqb_eq in Hcr. unfold strings.byte in Hcr.
  assert (Hc : c = ascii_of_nat 13)
    by (rewrite <- Hcr; symmetry; apply ascii_nat_embedding).
  subst c. reflexivity.
Qed.

(** The loop passes a turn without an error whose text is not empty and is
    not the record of an enabled subsystem, whatever it has read. *)
Lemma scanLoop_skip (text : string) (rest : list scan)
    (subsystems : slice string) :
  text <> "" -> enabledRecord text = false ->
  scanLoop (mkScan text None :: rest) subsystems = scanLoop rest subsystems.
Proof.
  intros Hne Hrec. destruct text as [|c tail]; [congruence|].
  unfold enabledRecord in Hrec. cbn [isComment] in Hrec.
  cbn [scanLoop Err Text].
  destruct (Ascii.eqb c "#"); cbn [negb andb] in *; [reflexivity|].
  now rewrite Hrec.
Qed.

(** The loop on two scans with the same first turn, when it agrees on what
    follows. *)
Lemma scanLoop_cons_congr (turns1 turns2 : list scan) :
  (forall subsystems, scanLoop turns1 subsystems = scanLoop turns2 subsystems) ->
  forall (t : scan) (subsystems : slice string),
    scanLoop (t :: turns1) subsystems = scanLoop (t :: turns2) subsystems.
Proof.
  intros Hrest t subsystems. cbn [scanLoop].
  destruct (Err t); [reflexivity|].
  destruct (Text t) as [|c tail]; [reflexivity|].
  destruct (negb (Ascii.eqb c "#")); [|apply Hrest].
  destruct ((4 <=? length (strings.Fields (String c tail)))
            && negb (nth 3 (strings.Fields (String c tail)) "" =? "0")%string);
    apply Hrest.
Qed.

Lemma lineTurns_without_line (lines1 lines2 : list string) (line : string) :
  tooLong line = false ->
  dropCR line <> "" -> enabledRecord (dropCR line) = false ->
  forall subsystems : slice string,
    scanLoop (lineTurns (lines1 ++ line :: lines2)) subsystems
    = scanLoop (lineTurns (lines1 ++ lines2)) subsystems.
Proof.
  intros Hshort Hne Hrec.
  induction lines1 as [|first lines1 IH]; intros subsystems.
  - cbn [app lineTurns]. rewrite Hshort. now apply scanLoop_skip.
  - cbn [app lineTurns]. destruct (tooLong first); [reflexivity|].
    now apply scanLoop_cons_congr.
Qed.

(** X4: in a file read without an I/O error, a line shorter than 64 KiB that
    is a comment, or is blank, has fewer than 4 fields or has the text "0"
    as 4th field once its trailing carriage return is dropped, and is not
    empty by then, can be added or taken away anywhere without changing
    what the reader returns. *)
Theorem reader_ignores_comment_blank_short_and_zero_lines
    (lines1 lines2 : list string) (line : string) :
  tooLong line = false ->
  isComment line = true
  \/ (dropCR line <> "" /\ blankLine (dropCR line) = true)
  \/ (dropCR line <> "" /\ length (strings.Fields (dropCR line)) < 4)
  \/ nth 3 (strings.Fields (dropCR line)) "" = "0" ->
  getCgroupSubsystems (fileLines (lines1 ++ line :: lines2))
  = getCgroupSubsystems (fileLines (lines1 ++ lines2)).
Proof.
  intros Hshort Hkind. unfold getCgroupSubsystems, fileLines. cbn [scans].
  apply lineTurns_without_line; [assumption| |];
    destruct Hkind as [Hc|[[Hne Hb]|[[Hne Hfew]|Hzero]]];
    try assumption.
  - apply isComment_not_empty. now rewrite isComment_dropCR.
  - intros Hempty. rewrite Hempty in Hzero. discriminate Hzero.
  - unfold enabledRecord. now rewrite isComment_dropCR, Hc.
  - unfold enabledRecord. rewrite (Fields_blankLine _ Hb). cbn [length].
    now rewrite andb_false_r.
  - unfold enabledRecord.
    replace (4 <=? length (strings.Fields (dropCR line))) with false
      by (symmetry; apply Nat.leb_gt; exact Hfew).
    now rewrite andb_false_r.
  - unfold enabledRecord. rewrite Hzero. cbn. apply andb_false_r.
Qed.

Lemma reader_ignores_comment_blank_short_and_zero_lines_witness :
  getCgroupSubsystems
    (fileLines (["cpu 1 1 1"] ++ "memory 2 1 0" :: ["pids 3 1 1"]))
  = getCgroupSubsystems (fileLines (["cpu 1 1 1"] ++ ["pids 3 1 1"])).
Proof.
  apply (reader_ignores_comment_blank_short_and_zero_lines
           ["cpu 1 1 1"] ["pids 3 1 1"] "memory 2 1 0").
  - reflexivity.
  - right. right. right. reflexivity.
Defined.

Lemma dropCR_after_byte (c : ascii) (line : string) :
  line <> "" -> dropCR (String c line) = String c (dropCR line).
Proof. destruct line; [congruence|reflexivity]. Qed.

(** X5: only a '#' in the first byte makes a comment.  In a file of one
    line, a comment line with at least 4 fields and a 4th field other than
    "0" gives no name, and the same line after one space is read as a
    record: its first field, with its '#', is returned as an enabled
    subsystem.  The line after the space has to be shorter than 64 KiB. *)
Theorem indented_comment_is_read_as_record (line : string) :
  isComment line = true ->
  (N.of_nat (String.length line) < 65535)%N ->
  4 <= length (strings.Fields (dropCR line)) ->
  nth 3 (strings.Fields (dropCR line)) "" <> "0" ->
  getCgroupSubsystems (fileLines [line]) = Returns (Slice [], None)
  /\ getCgroupSubsystems (fileLines [String " " line])
     = Returns (Slice [nth 0 (strings.Fields (dropCR line)) ""], None).
Proof.
  intros Hc Hlen Hfields Hfourth.
  assert (Hshort : tooLong line = false).
  { unfold tooLong, MaxScanTokenSize. apply N.leb_gt. lia. }
  assert (Hshort' : tooLong (String " " line) = false).
  { unfold tooLong, MaxScanTokenSize. apply N.leb_gt.
    cbn [String.length]. lia. }
  rewrite !fileLines_short by (repeat constructor; assumption).
  cbn [map]. rewrite dropCR_after_byte by now apply isComment_not_empty.
  apply comment_token_after_space; [|assumption|assumption].
  now rewrite isComment_dropCR.
Qed.

Lemma indented_comment_is_read_as_record_witness :
  getCgroupSubsystems
    (fileLines ["#subsys_name	hierarchy	num_cgroups	enabled"])
  = Returns (Slice [], None)
  /\ getCgroupSubsystems
       (fileLines [" #subsys_name	hierarchy	num_cgroups	enabled"])
     = Returns (Slice ["#subsys_name"], None).
Proof.
  apply (indented_comment_is_read_as_record
           "#subsys_name	hierarchy	num_cgroups	enabled").
  - reflexivity.
  - reflexivity.
  - simpl. lia.
  - discriminate.
Defined.

(** A scan from which the reader returns a list is clean. *)
Lemma getCgroupSubsystems_read_clean (s : Scanner)
    (subsystems : slice string) :
  getCgroupSubsystems (Opened s) = Returns (subsystems, None) ->
  Forall cleanTurn (scans s)
  /\ subsystems = Slice (enabledNames (map Text (scans s))).
Proof.
  intros Hget.
  destruct (getCgroupSubsystems_cases (Opened s))
    as [[err [Hf _]]|[[s' [Hf [Hall H]]]
       |[[s' [pre [t [rest [err [_ [_ [_ [_ H]]]]]]]]]
        |[s' [pre [t [rest [_ [_ [_ [_ [_ H]]]]]]]]]]]];
    try discriminate Hf; rewrite H in Hget; try discriminate Hget.
  injection Hf as <-. injection Hget as <-. now split.
Qed.

(** X6: reading composes.  When the reader returns a list from each of two
    files read without an I/O error and the lines of the first are all
    shorter than 64 KiB, it returns from the file made of the lines of the
    first and then of the second the names of the first followed by the
    names of the second. *)
Theorem reader_on_concatenated_files (lines1 lines2 : list string)
    (names1 names2 : slice string) :
  Forall (fun line => tooLong line = false) lines1 ->
  getCgroupSubsystems (fileLines lines1) = Returns (names1, None) ->
  getCgroupSubsystems (fileLines lines2) = Returns (names2, None) ->
  getCgroupSubsystems (fileLines (lines1 ++ lines2))
  = Returns (Slice (elems names1 ++ elems names2), None).
Proof.
  intros Hshort H1 H2.
  apply getCgroupSubsystems_read_clean in H1 as [Hclean1 ->].
  apply getCgroupSubsystems_read_clean in H2 as [Hclean2 ->].
  cbn [scans fileLines] in *. unfold fileLines.
  cbn [getCgroupSubsystems scans elems].
  rewrite (lineTurns_app lines1 lines2 Hshort).
  rewrite scanLoop_all_clean by (apply Forall_app; now split).
  now rewrite map_app, enabledNames_app.
Qed.

Lemma reader_on_concatenated_files_witness :
  getCgroupSubsystems (fileLines (["cpu 1 1 1"] ++ ["pids 3 1 1"]))
  = Returns (Slice ["cpu"; "pids"], None).
Proof.
  apply (reader_on_concatenated_files ["cpu 1 1 1"] ["pids 3 1 1"]
           (Slice ["cpu"]) (Slice ["pids"])).
  - repeat constructor.
  - reflexivity.
  - reflexivity.
Defined.

(** X15: the order of the lines of the file does not matter when they are
    all shorter than 64 KiB: for two such files read without an I/O error
    whose lines are the same up to their order, [Validate] returns the same
    warnings and errors and sends the same events, or panics alike. *)
Theorem Validate_ignores_line_order (mapUpper : string -> string)
    (spec : SysSpec) (lines1 lines2 : list string) (r : Reporter) :
  Forall (fun line => tooLong line = false) lines1 ->
  Permutation lines1 lines2 ->
  Validate mapUpper spec (fileLines lines1) r
  = Validate mapUpper spec (fileLines lines2) r.
Proof.
  intros Hshort Hperm.
  rewrite (fileLines_short lines1 Hshort).
  rewrite (fileLines_short lines2 (Permutation_Forall Hperm Hshort)).
  apply Validate_ignores_token_order. now apply Permutation_map.
Qed.

Lemma Validate_ignores_line_order_witness :
  Validate (fun s => s) specA (fileLines ["cpu 1 1 1"; "pids 3 1 1"]) []
  = Validate (fun s => s) specA (fileLines ["pids 3 1 1"; "cpu 1 1 1"]) [].
Proof.
  apply (Validate_ignores_line_order (fun s => s) specA
           ["cpu 1 1 1"; "pids 3 1 1"] ["pids 3 1 1"; "cpu 1 1 1"] []).
  - repeat constructor.
  - apply perm_swap.
Defined.

(** C8: with both lists of the specification empty, [Validate] is to return
    nil warnings and nil errors on any readable source.  The file below
    opens and is read without an error: its bytes are a record, a newline
    and a second newline, so its second line is empty.  The reader indexes
    the empty text and [Validate] panics, whatever the reporter holds. *)
Theorem Validate_nothing_declared_panics_on_empty_line
    (mapUpper : string -> string) (r : Reporter) :
  linesOf ("cpu 1 1 1" ++ newline ++ newline) = ["cpu 1 1 1"; ""]
  /\ Validate mapUpper (mkSysSpec (mkCgroupSpec [] []))
       (fileLines (linesOf ("cpu 1 1 1" ++ newline ++ newline))) r
     = Panics indexPanic.
Proof. split; reflexivity. Qed.
